(** * PRAKTIKUM_PBO_12: checkout coordinator and registration validator

    A shallow embedding of [kode11.py] (order checkout with injected payment
    and notification strategies) and [latihan_mandiri.py] (student
    registration validated by an ordered list of rules), with the properties
    stated about them.

    Python objects that the scripts mutate or pass by reference (the order,
    the registration dict, the logger's output) live in an explicit world
    that every method threads; injected strategies are records of methods
    written in the same monad, so they may log, mutate the object they are
    handed, keep private state, or raise. *)

From Stdlib Require Import ZArith String DecimalString Lia.
From stdpp Require Import base option list relations gmap strings.

Local Open Scope string_scope.
Local Open Scope Z_scope.

(** ** Python values *)

Module Py.

(** The values the two scripts store in fields and dict entries: [str],
    [int], [bool], plus [None].  There is no [float]: a statement that
    formats or compares a number says that it is an [int]. *)
Inductive value : Type :=
| VNone
| VBool (b : bool)
| VInt (n : Z)
| VStr (s : string).

Inductive exn : Type :=
| TypeError (msg : string)
| ValueError (msg : string)
| Exception (msg : string).

(** Outcome of a call: a returned value or a raised exception. *)
Inductive result (A : Type) : Type :=
| Ok (a : A)
| Raise (e : exn).
Arguments Ok {A} a.
Arguments Raise {A} e.

(** [bool(v)]: the truth value tested by [if v] and [not v]. *)
Definition truthy (v : value) : bool :=
  match v with
  | VNone => false
  | VBool b => b
  | VInt n => negb (n =? 0)%Z
  | VStr EmptyString => false
  | VStr (String _ _) => true
  end.

(** CPython's limit on the decimal digits of an [int] that [str()] and
    f-strings convert ([sys.int_info.default_max_str_digits]). *)
Definition int_max_str_digits : nat := 4300.

(** Number of decimal digits of [n], sign apart. *)
Definition digits (n : Z) : nat := Decimal.nb_digits (N.to_uint (Z.abs_N n)).

(** [str(n)] for an [int]: the decimal text, or [ValueError] past the
    digit limit. *)
Definition str_of_int (n : Z) : result string :=
  if (digits n <=? int_max_str_digits)%nat
  then Ok (NilZero.string_of_int (Z.to_int n))
  else Raise (ValueError "Exceeds the limit (4300 digits) for integer string conversion; use sys.set_int_max_str_digits() to increase the limit").
Arguments str_of_int : simpl never.

(** The smallest positive [int] past the limit: 4301 digits. *)
Definition huge : Z := 10 ^ 4300.
Arguments huge : simpl never.

(** [str(v)], as used by f-string interpolation. *)
Definition str (v : value) : result string :=
  match v with
  | VNone => Ok "None"
  | VBool true => Ok "True"
  | VBool false => Ok "False"
  | VInt n => str_of_int n
  | VStr s => Ok s
  end.

Definition type_name (v : value) : string :=
  match v with
  | VNone => "NoneType"
  | VBool _ => "bool"
  | VInt _ => "int"
  | VStr _ => "str"
  end.

(** The integer a value stands for in arithmetic comparisons; [bool] is a
    subclass of [int]. *)
Definition as_int (v : value) : option Z :=
  match v with
  | VInt n => Some n
  | VBool b => Some (Z.b2z b)
  | _ => None
  end.

(** [a > b].  Numbers compare by value, strings lexicographically; any
    other pairing raises [TypeError]. *)
Definition gt (a b : value) : result bool :=
  match as_int a, as_int b with
  | Some x, Some y => Ok (y <? x)%Z
  | _, _ =>
      match a, b with
      | VStr s, VStr t => Ok (String.ltb t s)
      | _, _ =>
          Raise (TypeError ("'>' not supported between instances of '"
                            ++ type_name a ++ "' and '" ++ type_name b ++ "'"))
      end
  end.

End Py.
Export Py.

(** ** Effects: state, exceptions, logging, recorded calls *)

Module Eff.

(** A computation over a mutable state [S] that returns or raises.  State
    changes made before an exception are kept, as in Python. *)
Definition M (S A : Type) : Type := S → result A * S.

#[global] Instance M_ret {S} : MRet (M S) := λ A a s, (Ok a, s).

#[global] Instance M_bind {S} : MBind (M S) := λ A B k m s,
  match m s with
  | (Ok a, s') => k a s'
  | (Raise e, s') => (Raise e, s')
  end.

Definition gets {S A} (f : S → A) : M S A := λ s, (Ok (f s), s).
Definition modify {S} (f : S → S) : M S unit := λ s, (Ok tt, f s).
Definition of_result {S A} (r : result A) : M S A := λ s, (r, s).

(** [logging]: the three levels the scripts use; the root logger is
    configured at [INFO], so every record is emitted. *)
Inductive level : Type := INFO | WARNING | ERROR.

Record LogRecord : Type := mkLogRecord {
  levelname : level;
  name : string;
  message : string
}.

(** What a method can see and change: the object it was handed (by
    reference), the log output, and [ext], the rest of the heap (private
    state of injected objects). *)
Record World (O X : Type) : Type := mkWorld {
  obj : O;
  log : list LogRecord;
  ext : X
}.
Arguments mkWorld {O X} obj log ext.
Arguments obj {O X} w.
Arguments log {O X} w.
Arguments ext {O X} w.

Definition emit {O X} (lvl : level) (logger : string) (msg : string)
  : M (World O X) unit :=
  modify (λ w, mkWorld (obj w) (log w ++ [mkLogRecord lvl logger msg]) (ext w)).

Definition set_obj {O X} (f : O → O) : M (World O X) unit :=
  modify (λ w, mkWorld (f (obj w)) (log w) (ext w)).

(** The coordinators run on a [Machine]: the world plus the record of the
    calls they made on injected objects.  Injected methods act on the
    world only, so they cannot touch the record. *)
Record Machine (W C : Type) : Type := mkMachine {
  world : W;
  calls : list C
}.
Arguments mkMachine {W C} world calls.
Arguments world {W C} m.
Arguments calls {W C} m.

(** The coordinator's own statements. *)
Definition lift {W C A} (m : M W A) : M (Machine W C) A := λ st,
  let '(r, w') := m (world st) in (r, mkMachine w' (calls st)).

(** A method call on an injected object: run it and record the world it
    was called in together with what it returned. *)
Definition invoke {W C A} (mk : W → result A → C) (m : M W A)
  : M (Machine W C) A := λ st,
  let '(r, w') := m (world st) in
  (r, mkMachine w' (calls st ++ [mk (world st) r])).

(** Run a coordinator from a world, with an empty call record. *)
Definition run {W C A} (m : M (Machine W C) A) (w : W) : result A * Machine W C :=
  m (mkMachine w []).

(** The method leaves the object it is handed as it found it. *)
Definition read_only {O X A} (m : M (World O X) A) : Prop :=
  ∀ w, obj (m w).2 = obj w.

(** The method returns normally, whatever the world. *)
Definition returns {S A} (m : M S A) : Prop :=
  ∀ s, ∃ a, (m s).1 = Ok a.

End Eff.
Export Eff.

(** ** kode11.py *)

Module Kode11.

Definition LOGGER : string := "Checkout".
Definition LOGGER_info {O X} (msg : string) : M (World O X) unit := emit INFO LOGGER msg.
Definition LOGGER_error {O X} (msg : string) : M (World O X) unit := emit ERROR LOGGER msg.

(** [@dataclass class Order].  The script builds its orders with integer
    prices. *)
Record Order : Type := mkOrder {
  customer_name : string;
  total_price : value;
  status : string
}.

(** [Order(customer_name, total_price)]: [status] takes its default. *)
Definition Order_new (customer_name : string) (total_price : value) : Order :=
  mkOrder customer_name total_price "open".

(** [order.status = s]. *)
Definition set_status (s : string) (o : Order) : Order :=
  mkOrder (customer_name o) (total_price o) s.

(** The pre-refactor class. *)
Module OrderManager.
Definition process_checkout {X} (payment_method : string)
  : M (World Order X) bool :=
  order ← gets obj;
  let notify_and_mark : M (World Order X) bool :=
    LOGGER_info ("Mengirim notifikasi ke " ++ customer_name order ++ "...");;
    set_obj (set_status "paid");;
    mret true in
  LOGGER_info ("Memulai checkout untuk " ++ customer_name order ++ "...");;
  if String.eqb payment_method "credit_card" then
    LOGGER_info "Processing Credit Card...";;
    notify_and_mark
  else if String.eqb payment_method "bank_transfer" then
    LOGGER_info "Processing Bank Transfer...";;
    notify_and_mark
  else
    LOGGER_info "Metode tidak valid.";;
    mret false.
End OrderManager.

(** [class IPaymentProcessor(ABC)]: [process(order) -> bool]; the order is
    the world's object. *)
Record IPaymentProcessor (X : Type) : Type := {
  process : M (World Order X) bool
}.
Arguments process {X} _.

(** [class INotificationService(ABC)]: [send(order)]. *)
Record INotificationService (X : Type) : Type := {
  send : M (World Order X) unit
}.
Arguments send {X} _.

Module CreditCardProcessor.
Definition process {X} : M (World Order X) bool :=
  LOGGER_info "Payment: Memproses Kartu Kredit.";;
  mret true.
Definition new {X} : IPaymentProcessor X := {| Kode11.process := process |}.
End CreditCardProcessor.

Module EmailNotifier.
Definition send {X} : M (World Order X) unit :=
  order ← gets obj;
  LOGGER_info ("Notif: Mengirim email konfirmasi ke " ++ customer_name order ++ ".").
Definition new {X} : INotificationService X := {| Kode11.send := send |}.
End EmailNotifier.

Module QrisProcessor.
Definition process {X} : M (World Order X) bool :=
  LOGGER_info "Payment: Memproses QRIS.";;
  mret true.
Definition new {X} : IPaymentProcessor X := {| Kode11.process := process |}.
End QrisProcessor.

(** A recorded call on an injected object: the order as it was when the
    method was entered, and what the method returned. *)
Inductive Call : Type :=
| CallProcess (order : Order) (r : result bool)
| CallSend (order : Order) (r : result unit).

Definition is_send (c : Call) : bool :=
  match c with CallSend _ _ => true | _ => false end.
Definition is_process (c : Call) : bool :=
  match c with CallProcess _ _ => true | _ => false end.
Definition count (p : Call → bool) (cs : list Call) : nat :=
  length (List.filter p cs).

Module CheckoutService.
Record t (X : Type) : Type := new {
  payment_processor : IPaymentProcessor X;
  notifier : INotificationService X
}.
Arguments new {X} payment_processor notifier.
Arguments payment_processor {X} _.
Arguments notifier {X} _.

Definition run_checkout {X} (self : t X)
  : M (Machine (World Order X) Call) bool :=
  order ← lift (gets obj);
  total ← lift (of_result (str (total_price order)));
  lift (LOGGER_info ("Memulai checkout untuk " ++ customer_name order
                     ++ ". Total: " ++ total));;
  payment_success ←
    invoke (λ w, CallProcess (obj w)) (process (payment_processor self));
  if payment_success : bool then
    lift (set_obj (set_status "paid"));;
    invoke (λ w, CallSend (obj w)) (send (notifier self));;
    lift (LOGGER_info "Checkout Sukses. Status pesanan: PAID");;
    mret true
  else
    lift (LOGGER_error "Pembayaran gagal. Transaksi di batalkan");;
    mret false.
End CheckoutService.


End Kode11.

(** ** latihan_mandiri.py *)

Module LatihanMandiri.

Definition LOGGER : string := "Registration".
Definition LOGGER_info {O X} (msg : string) : M (World O X) unit := emit INFO LOGGER msg.
Definition LOGGER_warning {O X} (msg : string) : M (World O X) unit := emit WARNING LOGGER msg.
Definition LOGGER_error {O X} (msg : string) : M (World O X) unit := emit ERROR LOGGER msg.

(** The registration data: a [dict] with string keys. *)
Abbreviation dict := (gmap string value).

(** [data.get(key, default)]. *)
Definition dict_get {X} (key : string) (dflt : value) : M (World dict X) value :=
  gets (λ w, default dflt (obj w !! key)).

(** [class IValidationRule(ABC)]: [validate(data) -> bool]; [data] is the
    world's object. *)
Record IValidationRule (X : Type) : Type := {
  validate : M (World dict X) bool
}.
Arguments validate {X} _.

Module SksLimitRule.
Record t : Type := init { max_sks : Z }.

Definition validate {X} (self : t) : M (World dict X) bool :=
  total_sks ← dict_get "total_sks" (VInt 0);
  over ← of_result (gt total_sks (VInt (max_sks self)));
  if over : bool then
    total ← of_result (str total_sks);
    limit ← of_result (str (VInt (max_sks self)));
    LOGGER_warning ("Validasi Gagal: Total SKS " ++ total
                    ++ " melebihi batas " ++ limit ++ ".");;
    mret false
  else
    LOGGER_info "Validasi SKS berhasil.";;
    mret true.

Definition new {X} (max_sks : Z) : IValidationRule X :=
  {| LatihanMandiri.validate := validate (init max_sks) |}.
End SksLimitRule.

Module PrerequisiteRule.
Definition validate {X} : M (World dict X) bool :=
  prasyarat_ok ← dict_get "prasyarat_ok" (VBool false);
  if negb (truthy prasyarat_ok) then
    LOGGER_warning "Validasi Gagal: Prasyarat mata kuliah belum terpenuhi.";;
    mret false
  else
    LOGGER_info "Validasi prasyarat berhasil.";;
    mret true.

Definition new {X} : IValidationRule X :=
  {| LatihanMandiri.validate := validate |}.
End PrerequisiteRule.

Module JadwalBentrokRule.
Definition validate {X} : M (World dict X) bool :=
  bentrok ← dict_get "jadwal_bentrok" (VBool false);
  if truthy bentrok then
    LOGGER_warning "Validasi Gagal: Terdapat jadwal bentrok.";;
    mret false
  else
    LOGGER_info "Validasi jadwal berhasil.";;
    mret true.

Definition new {X} : IValidationRule X :=
  {| LatihanMandiri.validate := validate |}.
End JadwalBentrokRule.

(** A recorded [rule.validate(data)]: the position of the rule in
    [self.rules], the data as it was on entry, and what was returned. *)
Record Call : Type := mkCall {
  call_index : nat;
  call_data : dict;
  call_result : result bool
}.

Module RegistrationService.
Record t (X : Type) : Type := new { rules : list (IValidationRule X) }.
Arguments new {X} rules.
Arguments rules {X} _.

(** [for rule in self.rules: ...], from position [i] on.  [Some b] is a
    [return b] out of the loop body, [None] is the loop running out. *)
Fixpoint for_rules {X} (i : nat) (rules : list (IValidationRule X))
  : M (Machine (World dict X) Call) (option bool) :=
  match rules with
  | [] => mret None
  | rule :: rest =>
      passed ← invoke (λ w, mkCall i (obj w)) (validate rule);
      if negb passed then
        lift (LOGGER_error ">>> VALIDASI REGISTRASI GAGAL");;
        mret (Some false)
      else for_rules (S i) rest
  end.

Definition validate {X} (self : t X)
  : M (Machine (World dict X) Call) bool :=
  lift (LOGGER_info "=== MULAI VALIDASI REGISTRASI ===");;
  returned ← for_rules 0 (rules self);
  match returned with
  | Some b => mret b
  | None =>
      lift (LOGGER_info ">>> VALIDASI REGISTRASI BERHASIL");;
      mret true
  end.
End RegistrationService.

(** [data_mhs] of the script's main block. *)
Definition data_mhs : dict :=
  {[ "nama" := VStr "Andi"; "total_sks" := VInt 22;
     "prasyarat_ok" := VBool true; "jadwal_bentrok" := VBool false ]}.

End LatihanMandiri.


(** * Vocabulary of the properties *)

Module CheckoutSpec.
Import Kode11 CheckoutService.

(** The operations of the script that are handed an order. *)
Inductive operation (X : Type) : Type :=
| RunCheckout (self : CheckoutService.t X)
| ProcessCheckout (payment_method : string).
Arguments RunCheckout {X} self.
Arguments ProcessCheckout {X} payment_method.

Definition perform {X} (op : operation X) (w : World Order X)
  : result bool * World Order X :=
  match op with
  | RunCheckout self =>
      let '(r, st) := run (CheckoutService.run_checkout self) w in (r, world st)
  | ProcessCheckout payment_method =>
      OrderManager.process_checkout payment_method w
  end.

(** A test double: a processor whose [process] returns a fixed verdict. *)
Module StubProcessor.
Definition process {X} (verdict : bool) : M (World Order X) bool :=
  mret verdict.
Definition new {X} (verdict : bool) : IPaymentProcessor X :=
  {| Kode11.process := process verdict |}.
End StubProcessor.

(** The world in which the processor is called: the opening line, with
    the total formatted as [total], has been logged. *)
Definition started {X} (total : string) (w : World Order X) : World Order X :=
  (LOGGER_info ("Memulai checkout untuk " ++ customer_name (obj w)
                ++ ". Total: " ++ total) w).2.

(** The world in which the notifier is called. *)
Definition marked_paid {X} (w : World Order X) : World Order X :=
  (set_obj (set_status "paid") w).2.

Definition logged {X} (lvl : level) (msg : string) (w : World Order X)
  : World Order X :=
  (emit lvl LOGGER msg w).2.

(** An operation whose injected strategies leave the order alone. *)
Definition well_behaved {X} (op : operation X) : Prop :=
  match op with
  | RunCheckout self =>
      read_only (process (payment_processor self)) ∧
      read_only (send (notifier self))
  | ProcessCheckout _ => True
  end.

(** One operation on the order, from world to world. *)
Definition step {X} (w w' : World Order X) : Prop :=
  ∃ op, well_behaved op ∧ (perform op w).2 = w'.

(** Unfold the monad down to plain state passing. *)
Ltac exec :=
  unfold run, mbind, M_bind, mret, M_ret, lift, invoke, gets, of_result,
    LOGGER_info, LOGGER_error, emit, modify, set_obj in *;
  cbn in *.

End CheckoutSpec.

Module RegistrationSpec.
Import LatihanMandiri.

(** [rule.validate(data)] returns [b] when the data is [d], whatever the
    rest of the world, and leaves the data as it is. *)
Definition returns_on {X} (d : dict) (rule : IValidationRule X) (b : bool) : Prop :=
  ∀ w, obj w = d → (validate rule w).1 = Ok b ∧ obj (validate rule w).2 = d.

Definition logged {X} (lvl : level) (msg : string) (w : World dict X)
  : World dict X :=
  (emit lvl LOGGER msg w).2.

(** The world after [data[key] = v]. *)
Definition with_entry {X} (key : string) (v : value) (w : World dict X)
  : World dict X :=
  mkWorld (<[key := v]> (obj w)) (log w) (ext w).

(** What the loop hands back, as the value [validate] returns. *)
Definition loop_result (r : result (option bool)) : result bool :=
  match r with
  | Ok None => Ok true
  | Ok (Some b) => Ok b
  | Raise e => Raise e
  end.

(** The results of the recorded calls over [n] rules, when the service
    returns [r]: [k] rules returned true, and either these are all the
    rules and [r] is true, or the next rule returned false (or raised),
    nothing was called after it, and [r] is false (or the exception). *)
Definition short_circuit (n : nat) (results : list (result bool))
    (r : result bool) : Prop :=
  ∃ k : nat,
    (k = n ∧ results = replicate k (Ok true) ∧ r = Ok true) ∨
    ((k < n)%nat ∧ results = (replicate k (Ok true) ++ [Ok false])%list ∧ r = Ok false) ∨
    (∃ e, (k < n)%nat ∧ results = (replicate k (Ok true) ++ [Raise e])%list ∧ r = Raise e).

(** The verdicts the service gets to see, given the verdicts the rules
    would return in list order: all up to and including the first false. *)
Fixpoint upto_first_false (bs : list bool) : list bool :=
  match bs with
  | [] => []
  | true :: rest => true :: upto_first_false rest
  | false :: _ => [false]
  end.

(** Unfold the monad down to plain state passing. *)
Ltac exec :=
  unfold run, mbind, M_bind, mret, M_ret, lift, invoke, gets, of_result,
    LOGGER_info, LOGGER_warning, LOGGER_error, emit, modify in *;
  cbn in *.

End RegistrationSpec.

(** * Test doubles for failure paths *)

Module CheckoutDoubles.
Import Kode11.

(** A processor whose [process] raises. *)
Module RaisingProcessor.
Definition process {X} (e : exn) : M (World Order X) bool :=
  of_result (Raise e).
Definition new {X} (e : exn) : IPaymentProcessor X :=
  {| Kode11.process := process e |}.
End RaisingProcessor.

(** A notifier whose [send] raises. *)
Module RaisingNotifier.
Definition send {X} (e : exn) : M (World Order X) unit :=
  of_result (Raise e).
Definition new {X} (e : exn) : INotificationService X :=
  {| Kode11.send := send e |}.
End RaisingNotifier.

End CheckoutDoubles.

Module RegistrationTerms.
Import LatihanMandiri.

(** A rule that, when it returns, has appended one record to the log and
    changed nothing else, and when it raises has changed nothing. *)
Definition logs_one_record {X} (rule : IValidationRule X) : Prop :=
  ∀ w,
    match validate rule w with
    | (Ok _, w') => ∃ r, w' = mkWorld (obj w) (log w ++ [r]) (ext w)
    | (Raise _, w') => w' = w
    end.

End RegistrationTerms.

(** * Formatting *)

Module PyProps.

Lemma str_of_int_fits (n : Z) :
  (digits n ≤ int_max_str_digits)%nat →
  str_of_int n = Ok (NilZero.string_of_int (Z.to_int n)).
Proof.
  intros H. unfold str_of_int. by rewrite (proj2 (Nat.leb_le _ _) H).
Qed.

Lemma str_of_int_too_long (n : Z) :
  (int_max_str_digits < digits n)%nat →
  ∃ msg, str_of_int n = Raise (ValueError msg).
Proof.
  intros H. unfold str_of_int.
  rewrite (proj2 (Nat.leb_gt _ _) H). by eexists.
Qed.

(** Every value formats, except an [int] past the digit limit. *)
Lemma str_fits (v : value) :
  (∀ n, v = VInt n → (digits n ≤ int_max_str_digits)%nat) →
  ∃ s, str v = Ok s.
Proof.
  intros H. destruct v as [|[]|n|s]; cbn; try by eexists.
  rewrite str_of_int_fits by by apply H. by eexists.
Qed.

Lemma str_raises (v : value) (e : exn) :
  str v = Raise e →
  ∃ n msg, v = VInt n ∧ (int_max_str_digits < digits n)%nat ∧ e = ValueError msg.
Proof.
  destruct v as [|[]|n|s]; cbn; try done.
  unfold str_of_int. destruct (Nat.leb_spec (digits n) int_max_str_digits); [done|].
  intros [= <-]. by eexists _, _.
Qed.

Lemma digits_huge : digits huge = 4301%nat.
Proof. vm_compute. reflexivity. Qed.

Lemma str_huge : ∃ msg, str (VInt huge) = Raise (ValueError msg).
Proof.
  apply str_of_int_too_long. rewrite digits_huge. unfold int_max_str_digits. lia.
Qed.

End PyProps.

(** * Properties of the checkout coordinator *)

Module CheckoutProps.
Import Kode11 CheckoutService CheckoutSpec CheckoutDoubles PyProps.

(** [run_checkout], path by path. *)
Lemma run_checkout_unfold {X} (P : IPaymentProcessor X)
    (N : INotificationService X) (w : World Order X) :
  run (run_checkout (new P N)) w =
  match str (total_price (obj w)) with
  | Raise e => (Raise e, mkMachine w [])
  | Ok total =>
      match process P (started total w) with
      | (Ok true, w1) =>
          match send N (marked_paid w1) with
          | (Ok u, w2) =>
              (Ok true,
               mkMachine (logged INFO "Checkout Sukses. Status pesanan: PAID" w2)
                 [CallProcess (obj w) (Ok true);
                  CallSend (obj (marked_paid w1)) (Ok u)])
          | (Raise e, w2) =>
              (Raise e,
               mkMachine w2
                 [CallProcess (obj w) (Ok true);
                  CallSend (obj (marked_paid w1)) (Raise e)])
          end
      | (Ok false, w1) =>
          (Ok false,
           mkMachine (logged ERROR "Pembayaran gagal. Transaksi di batalkan" w1)
             [CallProcess (obj w) (Ok false)])
      | (Raise e, w1) =>
          (Raise e, mkMachine w1 [CallProcess (obj w) (Raise e)])
      end
  end.
Proof.
  unfold run_checkout, started, marked_paid, logged. exec.
  destruct (str (total_price (obj w))) as [total|e]; cbn; [|reflexivity].
  destruct (process P _) as [[[]|e] w1]; cbn; [|reflexivity..].
  destruct (send N _) as [[u|e] w2]; reflexivity.
Qed.

Lemma obj_started {X} total (w : World Order X) : obj (started total w) = obj w.
Proof. reflexivity. Qed.

(** The provided strategies only log. *)
Lemma CreditCardProcessor_read_only {X} :
  read_only (process (@CreditCardProcessor.new X)).
Proof. intros w. reflexivity. Qed.

Lemma QrisProcessor_read_only {X} :
  read_only (process (@QrisProcessor.new X)).
Proof. intros w. reflexivity. Qed.

Lemma EmailNotifier_read_only {X} :
  read_only (send (@EmailNotifier.new X)).
Proof. intros w. reflexivity. Qed.

(** C2, amended. Checkout of an open order.  When the total formats for
    the opening line, the injected processor is called exactly once, on the
    order as given, after that line.  If it returns true, the order is
    marked, the injected notifier is called exactly once, on the marked
    order; [run_checkout] returns true when the notifier returns and raises
    what the notifier raised otherwise, the world is the one the notifier
    left (plus the closing line when it returned), and the status is "paid"
    (the notifier leaving the order alone).  If it returns false,
    [run_checkout] returns false, the notifier is not called, the world is
    the one the processor left plus the error line, and the status is still
    "open" (the processor leaving the order alone).  When the total does
    not format, the exception leaves [run_checkout] before anything is
    called or changed. *)
Theorem run_checkout_outcome {X} (P : IPaymentProcessor X)
    (N : INotificationService X) (w : World Order X) :
  status (obj w) = "open" →
  let res := run (run_checkout (new P N)) w in
  let order' := obj (world res.2) in
  (∀ total,
     str (total_price (obj w)) = Ok total →
     let called := process P (started total w) in
     let sent := send N (marked_paid called.2) in
     calls res.2 !! 0%nat = Some (CallProcess (obj w) called.1) ∧
     count is_process (calls res.2) = 1%nat ∧
     match called.1 with
     | Ok true =>
         calls res.2 !! 1%nat
         = Some (CallSend (set_status "paid" (obj called.2)) sent.1) ∧
         count is_send (calls res.2) = 1%nat ∧
         res.1 = (match sent.1 with Ok _ => Ok true | Raise e => Raise e end) ∧
         (returns (send N) → res.1 = Ok true) ∧
         world res.2
         = (match sent.1 with
            | Ok _ => logged INFO "Checkout Sukses. Status pesanan: PAID" sent.2
            | Raise _ => sent.2
            end) ∧
         (read_only (send N) → status order' = "paid")
     | Ok false =>
         res.1 = Ok false ∧
         count is_send (calls res.2) = 0%nat ∧
         world res.2
         = logged ERROR "Pembayaran gagal. Transaksi di batalkan" called.2 ∧
         (read_only (process P) → status order' = "open")
     | Raise e =>
         res.1 = Raise e ∧
         count is_send (calls res.2) = 0%nat ∧
         world res.2 = called.2
     end) ∧
  (∀ e, str (total_price (obj w)) = Raise e → res = (Raise e, mkMachine w [])).
Proof.
  intros Hopen. cbv zeta. rewrite run_checkout_unfold. split.
  - intros total ->.
    pose proof (λ H : read_only (process P), H (started total w)) as HP.
    rewrite obj_started in HP.
    destruct (process P (started total w)) as [[[]|e] w1];
      cbn [fst snd] in HP |- *.
    + pose proof (λ H : read_only (send N), H (marked_paid w1)) as HN.
      pose proof (λ H : returns (send N), H (marked_paid w1)) as HNr.
      destruct (send N (marked_paid w1)) as [[u|e] w2]; cbn in HN, HNr |- *;
        repeat split; try done.
      * intros H. by rewrite (HN H).
      * intros H. destruct (HNr H) as [a Ha]. discriminate.
      * intros H. by rewrite (HN H).
    + cbn. repeat split; try done. intros H. by rewrite (HP H).
    + cbn. done.
  - by intros e ->.
Qed.

Lemma run_checkout_outcome_witness :
  let paid :=
    run (run_checkout (new CreditCardProcessor.new EmailNotifier.new))
        (mkWorld (Order_new "Andi" (VInt 500000)) [] tt) in
  let declined :=
    run (run_checkout (new (StubProcessor.new false) EmailNotifier.new))
        (mkWorld (Order_new "Budi" (VInt 100000)) [] tt) in
  (paid.1 = Ok true ∧ status (obj (world paid.2)) = "paid" ∧
   count is_send (calls paid.2) = 1%nat ∧
   map message (log (world paid.2))
   = ["Memulai checkout untuk Andi. Total: 500000";
      "Payment: Memproses Kartu Kredit.";
      "Notif: Mengirim email konfirmasi ke Andi.";
      "Checkout Sukses. Status pesanan: PAID"]) ∧
  (declined.1 = Ok false ∧ status (obj (world declined.2)) = "open" ∧
   count is_send (calls declined.2) = 0%nat).
Proof.
  split.
  - destruct (run_checkout_outcome CreditCardProcessor.new EmailNotifier.new
                (mkWorld (Order_new "Andi" (VInt 500000)) [] tt) eq_refl)
      as [H _].
    destruct (H "500000" eq_refl) as (_ & _ & _ & Hc & _ & Hr & Hw & Hs).
    split; [|split; [|split]].
    + apply Hr. intros w. exists tt. reflexivity.
    + apply Hs. intros w. reflexivity.
    + exact Hc.
    + rewrite Hw. reflexivity.
  - destruct (run_checkout_outcome (StubProcessor.new false) EmailNotifier.new
                (mkWorld (Order_new "Budi" (VInt 100000)) [] tt) eq_refl)
      as [H _].
    destruct (H "100000" eq_refl) as (_ & _ & Hr & Hc & _ & Hs).
    split; [|split].
    + exact Hr.
    + apply Hs. intros w. reflexivity.
    + exact Hc.
Defined.

(** C2 as stated fails, twice.  On an open order whose total is an [int]
    of 4301 digits, with a processor that returns true on every order,
    [run_checkout] raises [ValueError] at its opening line: it does not
    return true, the status stays "open" and the notifier is not called.
    And with a processor that returns true and a notifier that raises,
    the status becomes "paid" and the notifier is called once, but
    [run_checkout] raises instead of returning true. *)
Lemma true_processor_checkout_raises :
  let always := StubProcessor.new true in
  let down := Exception "smtp down" in
  let w0 := mkWorld (Order_new "Andi" (VInt huge)) [] tt in
  let res := run (run_checkout (new always EmailNotifier.new)) w0 in
  let w1 := mkWorld (Order_new "Budi" (VInt 100000)) [] tt in
  let res1 := run (run_checkout (new always (RaisingNotifier.new down))) w1 in
  ((∀ w : World Order unit, (process always w).1 = Ok true) ∧
   status (obj w0) = "open" ∧
   (∃ msg, res.1 = Raise (ValueError msg)) ∧
   status (obj (world res.2)) = "open" ∧
   count is_send (calls res.2) = 0%nat) ∧
  (status (obj w1) = "open" ∧
   calls res1.2
   = [CallProcess (Order_new "Budi" (VInt 100000)) (Ok true);
      CallSend (mkOrder "Budi" (VInt 100000) "paid") (Raise down)] ∧
   status (obj (world res1.2)) = "paid" ∧
   res1.1 = Raise down) ∧
  ¬ (∀ (N : INotificationService unit) (w : World Order unit),
       status (obj w) = "open" →
       (run (run_checkout (new always N)) w).1 = Ok true).
Proof.
  assert (∃ msg,
            run (run_checkout (new (StubProcessor.new true) EmailNotifier.new))
                (mkWorld (Order_new "Andi" (VInt huge)) [] tt)
            = (Raise (ValueError msg),
               mkMachine (mkWorld (Order_new "Andi" (VInt huge)) [] tt) []))
    as [msg Hres].
  { rewrite run_checkout_unfold. cbn [obj total_price Order_new].
    destruct str_huge as [msg ->]. by exists msg. }
  cbv zeta. split; [|split].
  - rewrite Hres. split; [done|]. split; [done|].
    split; [by exists msg|]. by split.
  - by repeat split.
  - intros H.
    specialize (H EmailNotifier.new (mkWorld (Order_new "Andi" (VInt huge)) [] tt)
                  eq_refl).
    rewrite Hres in H. discriminate H.
Qed.




(** C10. Whenever the notifier is called, the order it is handed already
    has status "paid". *)
Theorem notifier_sees_paid {X} (self : CheckoutService.t X)
    (w : World Order X) order r :
  CallSend order r ∈ calls (run (run_checkout self) w).2 →
  status order = "paid".
Proof.
  destruct self as [P N]. rewrite run_checkout_unfold.
  destruct (str (total_price (obj w))) as [total|e0];
    [destruct (process P (started total w)) as [[[]|e] w1];
       [destruct (send N (marked_paid w1)) as [[u|e] w2]|..]|]; cbn;
    rewrite ?elem_of_cons, elem_of_nil; intros H;
    repeat destruct H as [H|H]; try done; by injection H as -> _.
Qed.

Lemma notifier_sees_paid_witness :
  let res :=
    run (run_checkout (new CreditCardProcessor.new EmailNotifier.new))
        (mkWorld (Order_new "Andi" (VInt 500000)) [] tt) in
  let handed := mkOrder "Andi" (VInt 500000) "paid" in
  CallSend handed (Ok tt) ∈ calls res.2 ∧ status handed = "paid".
Proof.
  assert (CallSend (mkOrder "Andi" (VInt 500000) "paid") (Ok tt)
          ∈ calls (run (run_checkout (new CreditCardProcessor.new EmailNotifier.new))
                       (mkWorld (Order_new "Andi" (VInt 500000)) [] tt)).2) as Hin
    by (vm_compute; apply list_elem_of_further, list_elem_of_here).
  split; [exact Hin|].
  exact (notifier_sees_paid _ _ _ _ Hin).
Defined.

(** C8. The provided strategies leave the order alone, and with any
    strategies that do, [run_checkout] changes nothing of the order but
    its status: the order afterwards is the order before, or the order
    before with status "paid"; [customer_name] and [total_price] are the
    same on every path. *)
Theorem run_checkout_frame {X} :
  read_only (process (@CreditCardProcessor.new X)) ∧
  read_only (process (@QrisProcessor.new X)) ∧
  read_only (send (@EmailNotifier.new X)) ∧
  ∀ P N (w : World Order X),
    read_only (process P) → read_only (send N) →
    let order' := obj (world (run (run_checkout (new P N)) w).2) in
    customer_name order' = customer_name (obj w) ∧
    total_price order' = total_price (obj w) ∧
    (order' = obj w ∨ order' = set_status "paid" (obj w)).
Proof.
  split; [apply CreditCardProcessor_read_only|].
  split; [apply QrisProcessor_read_only|].
  split; [apply EmailNotifier_read_only|].
  intros P N w HP HN. rewrite run_checkout_unfold.
  destruct (str (total_price (obj w))) as [total|e0]; [|cbn; auto].
  pose proof (HP (started total w)) as HP1. rewrite obj_started in HP1.
  destruct (process P (started total w)) as [[[]|e] w1]; cbn in HP1.
  - pose proof (HN (marked_paid w1)) as HN1.
    destruct (send N (marked_paid w1)) as [[u|e] w2]; cbn in HN1 |- *;
      rewrite HN1, HP1; auto.
  - cbn. rewrite HP1. auto.
  - cbn. rewrite HP1. auto.
Qed.

Lemma run_checkout_frame_witness :
  let order' :=
    obj (world (run (run_checkout (new (StubProcessor.new false) EmailNotifier.new))
                    (mkWorld (Order_new "Andi" (VInt 500000)) [] tt)).2) in
  customer_name order' = "Andi" ∧ total_price order' = VInt 500000.
Proof.
  destruct (@run_checkout_frame unit) as (_ & _ & _ & H).
  destruct (H (StubProcessor.new false) EmailNotifier.new
              (mkWorld (Order_new "Andi" (VInt 500000)) [] tt)) as (Hn & Hp & _).
  - intros w. reflexivity.
  - intros w. reflexivity.
  - split; [exact Hn | exact Hp].
Defined.

(** What [run_checkout] does to the status, strategies leaving the order
    alone: "paid" when the processor was called and returned true, else as
    found. *)
Lemma run_checkout_status {X} (P : IPaymentProcessor X)
    (N : INotificationService X) (w : World Order X) :
  read_only (process P) → read_only (send N) →
  obj (world (run (run_checkout (new P N)) w).2)
  = match str (total_price (obj w)) with
    | Ok total =>
        if (process P (started total w)).1 is Ok true
        then set_status "paid" (obj w) else obj w
    | Raise _ => obj w
    end.
Proof.
  intros HP HN. rewrite run_checkout_unfold.
  destruct (str (total_price (obj w))) as [total|e0]; [|done].
  pose proof (HP (started total w)) as HP1. rewrite obj_started in HP1.
  destruct (process P (started total w)) as [[[]|e] w1];
    cbn [fst snd] in HP1 |- *; [|cbn; by rewrite HP1..].
  pose proof (HN (marked_paid w1)) as HN1.
  destruct (send N (marked_paid w1)) as [[u|e] w2]; cbn in HN1 |- *;
    by rewrite HN1, HP1.
Qed.

Lemma process_checkout_status {X} (payment_method : string) (w : World Order X) :
  obj (OrderManager.process_checkout payment_method w).2
  = if String.eqb payment_method "credit_card"
       || String.eqb payment_method "bank_transfer"
    then set_status "paid" (obj w) else obj w.
Proof.
  unfold OrderManager.process_checkout. exec.
  destruct (String.eqb payment_method "credit_card"); cbn; [done|].
  by destruct (String.eqb payment_method "bank_transfer").
Qed.

(** What an operation may do to the order it is handed. *)
Lemma perform_effect {X} (op : operation X) (w : World Order X) :
  well_behaved op →
  obj (perform op w).2 = obj w ∨
  obj (perform op w).2 = set_status "paid" (obj w).
Proof.
  destruct op as [[P N]|payment_method]; cbn [well_behaved perform].
  - intros (HP & HN). cbn in HP, HN.
    pose proof (run_checkout_status P N w HP HN) as H.
    destruct (run (run_checkout (new P N)) w) as [r st]. cbn in H |- *.
    rewrite H. destruct (str _); [|auto]. destruct (process P _).1 as [[]|]; auto.
  - intros _. rewrite process_checkout_status.
    destruct (_ || _); auto.
Qed.

Lemma step_status {X} (w w' : World Order X) :
  step w w' →
  status (obj w') = status (obj w) ∨ status (obj w') = "paid".
Proof.
  intros (op & Hop & <-).
  destruct (perform_effect op w Hop) as [-> | ->]; auto.
Qed.

Lemma paid_stays_paid {X} (w w' : World Order X) :
  status (obj w) = "paid" → rtc step w w' → status (obj w') = "paid".
Proof.
  intros Hpaid Hsteps. revert Hpaid.
  induction Hsteps as [w | w w1 w' Hstep _ IH]; [auto|].
  intros Hpaid. apply IH. destruct (step_status _ _ Hstep); congruence.
Qed.

(** C6, amended. A default-constructed order starts "open".  With
    strategies that leave the order alone, [run_checkout] sets the status to
    "paid", whatever it was, exactly when the total formatted and the
    processor, called after the opening line, returned true (be it that the
    notifier then raises), and otherwise leaves it as found; the
    pre-refactor [process_checkout] sets it to "paid" exactly for the
    methods "credit_card" and "bank_transfer", and otherwise leaves it as
    found.  So over any sequence of these operations an order that starts
    "open" is "open" or "paid", and a "paid" order stays "paid". *)
Theorem status_lifecycle {X} :
  (∀ name price, status (Order_new name price) = "open") ∧
  (∀ P N (w : World Order X),
     read_only (process P) → read_only (send N) →
     let status' := status (obj (world (run (run_checkout (new P N)) w).2)) in
     (∀ total,
        str (total_price (obj w)) = Ok total →
        status' = if (process P (started total w)).1 is Ok true
                  then "paid" else status (obj w)) ∧
     (∀ e, str (total_price (obj w)) = Raise e → status' = status (obj w))) ∧
  (∀ payment_method (w : World Order X),
     status (obj (OrderManager.process_checkout payment_method w).2)
     = if String.eqb payment_method "credit_card"
          || String.eqb payment_method "bank_transfer"
       then "paid" else status (obj w)) ∧
  (∀ w w' : World Order X,
     status (obj w) = "open" → rtc step w w' →
     status (obj w') = "open" ∨ status (obj w') = "paid") ∧
  (∀ w w' : World Order X,
     status (obj w) = "paid" → rtc step w w' → status (obj w') = "paid").
Proof.
  split; [reflexivity|]. split; [|split; [|split]].
  - intros P N w HP HN. cbv zeta. rewrite (run_checkout_status P N w HP HN).
    split.
    + intros total ->. by destruct (process P _).1 as [[]|].
    + by intros e ->.
  - intros payment_method w. rewrite process_checkout_status.
    by destruct (_ || _).
  - intros w w' Hopen Hsteps. revert Hopen.
    induction Hsteps as [w | w w1 w' Hstep Hrest IH]; [auto|].
    intros Hopen. destruct (step_status _ _ Hstep) as [H | H].
    + apply IH. congruence.
    + right. by apply (paid_stays_paid w1).
  - apply paid_stays_paid.
Qed.

Lemma status_lifecycle_witness :
  let w0 := mkWorld (Order_new "Andi" (VInt 500000)) [] tt in
  let down := Exception "smtp down" in
  let unnotified :=
    run (run_checkout (new CreditCardProcessor.new (RaisingNotifier.new down))) w0 in
  let declined := RunCheckout (new (StubProcessor.new false) EmailNotifier.new) in
  (unnotified.1 = Raise down ∧ status (obj (world unnotified.2)) = "paid") ∧
  status (obj (perform declined (world unnotified.2)).2) = "paid".
Proof.
  intros w0 down unnotified declined.
  destruct (@status_lifecycle unit) as (_ & Hrun & _ & _ & Hpaid).
  destruct (Hrun CreditCardProcessor.new (RaisingNotifier.new down) w0)
    as [Hs _].
  - intros w. reflexivity.
  - intros w. reflexivity.
  - specialize (Hs "500000" eq_refl).
    split; [split; [reflexivity | exact Hs]|].
    apply (Hpaid (world unnotified.2)); [exact Hs|].
    eapply rtc_l; [|apply rtc_refl].
    exists declined. split; [|reflexivity].
    split; intros w; reflexivity.
Defined.

(** C6 as stated fails: the pre-refactor [OrderManager.process_checkout]
    also takes a default-constructed order from "open" to "paid" and returns
    true, so [run_checkout] is not the only operation that changes the
    status. *)
Lemma process_checkout_also_pays :
  let w0 := mkWorld (Order_new "Andi" (VInt 500000)) [] tt in
  let res := perform (ProcessCheckout "credit_card") w0 in
  (status (obj w0) = "open" ∧ res.1 = Ok true ∧ status (obj res.2) = "paid") ∧
  ¬ (∀ (op : operation unit) (w : World Order unit),
       status (obj (perform op w).2) ≠ status (obj w) →
       ∃ self, op = RunCheckout self).
Proof.
  split; [by repeat split|].
  intros H.
  destruct (H (ProcessCheckout "credit_card")
              (mkWorld (Order_new "Andi" (VInt 500000)) [] tt)) as [self Hself].
  - cbn. discriminate.
  - discriminate Hself.
Qed.

(** Scenario 1 of the script. *)
Example scenario_credit_card :
  let res :=
    run (run_checkout (new CreditCardProcessor.new EmailNotifier.new))
        (mkWorld (Order_new "Andi" (VInt 500000)) [] tt) in
  res.1 = Ok true ∧
  obj (world res.2) = mkOrder "Andi" (VInt 500000) "paid" ∧
  map message (log (world res.2)) =
    ["Memulai checkout untuk Andi. Total: 500000";
     "Payment: Memproses Kartu Kredit.";
     "Notif: Mengirim email konfirmasi ke Andi.";
     "Checkout Sukses. Status pesanan: PAID"].
Proof. repeat split. Qed.

(** Scenario 2 of the script. *)
Example scenario_qris :
  let res :=
    run (run_checkout (new QrisProcessor.new EmailNotifier.new))
        (mkWorld (Order_new "Budi" (VInt 100000)) [] tt) in
  res.1 = Ok true ∧
  obj (world res.2) = mkOrder "Budi" (VInt 100000) "paid" ∧
  map message (log (world res.2)) =
    ["Memulai checkout untuk Budi. Total: 100000";
     "Payment: Memproses QRIS.";
     "Notif: Mengirim email konfirmasi ke Budi.";
     "Checkout Sukses. Status pesanan: PAID"].
Proof. repeat split. Qed.

End CheckoutProps.

(** * Properties of the registration validator *)

Module RegistrationProps.
Import LatihanMandiri RegistrationSpec PyProps.

(** [SksLimitRule.validate], path by path. *)
Lemma SksLimitRule_unfold {X} (max_sks : Z) (w : World dict X) :
  SksLimitRule.validate (SksLimitRule.init max_sks) w =
  let total_sks := default (VInt 0) (obj w !! "total_sks") in
  match gt total_sks (VInt max_sks) with
  | Raise e => (Raise e, w)
  | Ok false => (Ok true, logged INFO "Validasi SKS berhasil." w)
  | Ok true =>
      match str total_sks with
      | Raise e => (Raise e, w)
      | Ok total =>
          match str (VInt max_sks) with
          | Raise e => (Raise e, w)
          | Ok limit =>
              (Ok false,
               logged WARNING ("Validasi Gagal: Total SKS " ++ total
                               ++ " melebihi batas " ++ limit ++ ".") w)
          end
      end
  end.
Proof.
  unfold SksLimitRule.validate, dict_get, logged. exec.
  destruct (gt _ _) as [[]|e]; cbn; [|reflexivity..].
  destruct (str _) as [total|e]; cbn; [|reflexivity].
  destruct (str_of_int max_sks) as [limit|e]; reflexivity.
Qed.

Lemma SksLimitRule_on_int {X} (max_sks n : Z) (w : World dict X) :
  default (VInt 0) (obj w !! "total_sks") = VInt n →
  SksLimitRule.validate (SksLimitRule.init max_sks) w =
  if max_sks <? n then
    match str_of_int n with
    | Raise e => (Raise e, w)
    | Ok total =>
        match str_of_int max_sks with
        | Raise e => (Raise e, w)
        | Ok limit =>
            (Ok false,
             logged WARNING ("Validasi Gagal: Total SKS " ++ total
                             ++ " melebihi batas " ++ limit ++ ".") w)
        end
    end
  else (Ok true, logged INFO "Validasi SKS berhasil." w).
Proof.
  intros Hn. rewrite SksLimitRule_unfold. cbv zeta. rewrite Hn. reflexivity.
Qed.




(** Outside the integers the comparison itself fails: a [str] under
    "total_sks" makes the rule raise. *)
Example SksLimitRule_str_raises :
  (SksLimitRule.validate (SksLimitRule.init 24)
     (mkWorld ({[ "total_sks" := VStr "banyak" ]} : dict) [] tt)).1
  = Raise (TypeError "'>' not supported between instances of 'str' and 'int'").
Proof. reflexivity. Qed.

(** C4. When the key is present with value [v], [PrerequisiteRule] returns
    the truth value of [data["prasyarat_ok"]] and [JadwalBentrokRule] the
    negation of the truth value of [data["jadwal_bentrok"]]. *)
Theorem flag_rules_pass_through {X} (w : World dict X) (v : value) :
  (obj w !! "prasyarat_ok" = Some v →
   (PrerequisiteRule.validate w).1 = Ok (truthy v)) ∧
  (obj w !! "jadwal_bentrok" = Some v →
   (JadwalBentrokRule.validate w).1 = Ok (negb (truthy v))).
Proof.
  split; intros Hv;
    unfold PrerequisiteRule.validate, JadwalBentrokRule.validate, dict_get;
    exec; rewrite Hv; cbn; by destruct (truthy v).
Qed.

Lemma flag_rules_pass_through_witness :
  (PrerequisiteRule.validate (mkWorld data_mhs [] tt)).1 = Ok true ∧
  (JadwalBentrokRule.validate (mkWorld data_mhs [] tt)).1 = Ok true.
Proof.
  split.
  - apply (proj1 (flag_rules_pass_through (mkWorld data_mhs [] tt) (VBool true))).
    reflexivity.
  - apply (proj2 (flag_rules_pass_through (mkWorld data_mhs [] tt) (VBool false))).
    reflexivity.
Defined.

(** C9. With the key absent each rule returns what it returns with the
    key present and holding its default: 0 for "total_sks" (so
    [SksLimitRule] returns true whenever [max_sks >= 0], and false for a
    negative [max_sks] of at most 4300 digits), False for "prasyarat_ok"
    (so [PrerequisiteRule] returns false), False for "jadwal_bentrok" (so
    [JadwalBentrokRule] returns true). *)
Theorem missing_key_defaults {X} (max_sks : Z) (w : World dict X) :
  let sks := SksLimitRule.validate (SksLimitRule.init max_sks) in
  (obj w !! "total_sks" = None →
   (sks w).1 = (sks (with_entry "total_sks" (VInt 0) w)).1 ∧
   (0 ≤ max_sks → (sks w).1 = Ok true) ∧
   ((digits max_sks ≤ int_max_str_digits)%nat → (sks w).1 = Ok (0 <=? max_sks))) ∧
  (obj w !! "prasyarat_ok" = None →
   (PrerequisiteRule.validate w).1
   = (PrerequisiteRule.validate (with_entry "prasyarat_ok" (VBool false) w)).1 ∧
   (PrerequisiteRule.validate w).1 = Ok false) ∧
  (obj w !! "jadwal_bentrok" = None →
   (JadwalBentrokRule.validate w).1
   = (JadwalBentrokRule.validate (with_entry "jadwal_bentrok" (VBool false) w)).1 ∧
   (JadwalBentrokRule.validate w).1 = Ok true).
Proof.
  cbv zeta. split; [|split]; intros Hv.
  - rewrite (SksLimitRule_on_int max_sks 0 w) by (by rewrite Hv).
    rewrite (SksLimitRule_on_int max_sks 0 (with_entry _ _ w))
      by (unfold with_entry; cbn [obj]; by rewrite lookup_insert_eq).
    destruct (Z.ltb_spec max_sks 0) as [Hneg | Hpos].
    + split; [|split; [lia|]].
      * destruct (str_of_int 0); [destruct (str_of_int max_sks)|]; done.
      * intros Hdm.
        rewrite (str_of_int_fits 0) by (apply Nat.leb_le; reflexivity).
        rewrite (str_of_int_fits max_sks Hdm). cbn.
        destruct (Z.leb_spec 0 max_sks); [lia | done].
    + cbn. split; [done|]. split; [done|]. intros _.
      destruct (Z.leb_spec 0 max_sks); [done | lia].
  - unfold PrerequisiteRule.validate, dict_get, with_entry. exec.
    by rewrite Hv, lookup_insert_eq.
  - unfold JadwalBentrokRule.validate, dict_get, with_entry. exec.
    by rewrite Hv, lookup_insert_eq.
Qed.

Lemma missing_key_defaults_witness :
  (SksLimitRule.validate (SksLimitRule.init 24) (mkWorld (∅ : dict) [] tt)).1 = Ok true ∧
  (SksLimitRule.validate (SksLimitRule.init (-1)) (mkWorld (∅ : dict) [] tt)).1
  = Ok false ∧
  (PrerequisiteRule.validate (mkWorld (∅ : dict) [] tt)).1 = Ok false ∧
  (JadwalBentrokRule.validate (mkWorld (∅ : dict) [] tt)).1 = Ok true.
Proof.
  destruct (missing_key_defaults 24 (mkWorld (∅ : dict) [] tt)) as (Hs & Hp & Hj).
  destruct (missing_key_defaults (-1) (mkWorld (∅ : dict) [] tt)) as (Hs' & _).
  split; [|split; [|split]].
  - destruct Hs as (_ & H & _); [reflexivity|]. apply H. lia.
  - destruct Hs' as (_ & _ & H); [reflexivity|].
    apply H. apply Nat.leb_le. reflexivity.
  - apply Hp. reflexivity.
  - apply Hj. reflexivity.
Defined.

Lemma for_rules_cons {X} i (rule : IValidationRule X) rest st :
  RegistrationService.for_rules i (rule :: rest) st =
  match validate rule (world st) with
  | (Ok true, w') =>
      RegistrationService.for_rules (S i) rest
        (mkMachine w' (calls st ++ [mkCall i (obj (world st)) (Ok true)]))
  | (Ok false, w') =>
      (Ok (Some false),
       mkMachine (logged ERROR ">>> VALIDASI REGISTRASI GAGAL" w')
         (calls st ++ [mkCall i (obj (world st)) (Ok false)]))
  | (Raise e, w') =>
      (Raise e, mkMachine w' (calls st ++ [mkCall i (obj (world st)) (Raise e)]))
  end.
Proof.
  cbn [RegistrationService.for_rules]. unfold logged. exec.
  destruct (validate rule (world st)) as [[[]|e] w']; reflexivity.
Qed.

Lemma validate_unfold {X} (rules : list (IValidationRule X)) w :
  run (RegistrationService.validate (RegistrationService.new rules)) w =
  match RegistrationService.for_rules 0 rules
          (mkMachine (logged INFO "=== MULAI VALIDASI REGISTRASI ===" w) []) with
  | (Ok (Some b), st) => (Ok b, st)
  | (Ok None, st) =>
      (Ok true,
       mkMachine (logged INFO ">>> VALIDASI REGISTRASI BERHASIL" (world st))
         (calls st))
  | (Raise e, st) => (Raise e, st)
  end.
Proof.
  unfold RegistrationService.validate, logged. exec.
  destruct (RegistrationService.for_rules _ _ _) as [[[b|]|e] st];
    reflexivity.
Qed.

(** The loop calls the rules in order from position [i], and stops at the
    first one that does not return true. *)
Lemma for_rules_trace {X} (rules : list (IValidationRule X)) i st :
  ∃ cs,
    calls (RegistrationService.for_rules i rules st).2 = (calls st ++ cs)%list ∧
    map call_index cs = seq i (length cs) ∧
    short_circuit (length rules) (map call_result cs)
      (loop_result (RegistrationService.for_rules i rules st).1).
Proof.
  revert i st. induction rules as [|rule rest IH]; intros i st.
  - exists []. cbn. rewrite app_nil_r. repeat split. exists 0%nat. by left.
  - rewrite for_rules_cons.
    destruct (validate rule (world st)) as [[[]|e] w'].
    + destruct (IH (S i) (mkMachine w' (calls st ++ [mkCall i (obj (world st)) (Ok true)])))
        as (cs & Hcs & Hidx & k & Hk).
      exists (mkCall i (obj (world st)) (Ok true) :: cs).
      rewrite Hcs. cbn. rewrite <- app_assoc. split; [done|].
      split; [by rewrite Hidx|].
      exists (S k). cbn.
      destruct Hk as [(-> & -> & ->) | [(Hlt & -> & ->) | (e & Hlt & -> & ->)]].
      * by left.
      * right; left. repeat split; [lia | done..].
      * right; right. exists e. repeat split; [lia | done..].
    + exists [mkCall i (obj (world st)) (Ok false)]. cbn. repeat split.
      exists 0%nat. right; left. cbn. repeat split; lia.
    + exists [mkCall i (obj (world st)) (Raise e)]. cbn. repeat split.
      exists 0%nat. right; right. exists e. cbn. repeat split; lia.
Qed.

Lemma for_rules_verdicts {X} (d : dict) (rules : list (IValidationRule X)) bs :
  Forall2 (returns_on d) rules bs →
  ∀ i st, obj (world st) = d →
    (RegistrationService.for_rules i rules st).1
    = Ok (if forallb id bs then None else Some false).
Proof.
  induction 1 as [|rule b rest bs Hrule _ IH]; intros i st Hd; [reflexivity|].
  rewrite for_rules_cons. destruct (Hrule (world st) Hd) as [Hr Ho].
  destruct (validate rule (world st)) as [r w']. cbn in Hr, Ho. subst r.
  destruct b; cbn; [|reflexivity]. by apply IH.
Qed.

Lemma short_circuit_all_true n results r :
  short_circuit n results r →
  r = Ok true ↔ length results = n ∧ Forall (λ x, x = Ok true) results.
Proof.
  intros [k [(-> & -> & ->) | [(Hlt & -> & ->) | (e & Hlt & -> & ->)]]].
  - split; [|done]. intros _. rewrite length_replicate. split; [done|].
    apply Forall_replicate. done.
  - split; [done|]. intros [_ H]. apply Forall_app in H as [_ H].
    rewrite Forall_singleton in H. done.
  - split; [done|]. intros [_ H]. apply Forall_app in H as [_ H].
    rewrite Forall_singleton in H. done.
Qed.

(** Every recorded call is a run of the rule at that position. *)
Lemma for_rules_ties {X} (rules : list (IValidationRule X)) i st :
  ∃ cs,
    calls (RegistrationService.for_rules i rules st).2 = (calls st ++ cs)%list ∧
    ∀ k c,
      cs !! k = Some c →
      ∃ rule u,
        rules !! k = Some rule ∧ call_data c = obj u ∧
        call_result c = (validate rule u).1.
Proof.
  revert i st. induction rules as [|rule rest IH]; intros i st.
  - exists []. cbn. rewrite app_nil_r. split; [done|]. by intros k c.
  - rewrite for_rules_cons.
    assert (∀ r (tail : list Call) k c,
              (∀ k c, tail !! k = Some c →
                      ∃ rule u, rest !! k = Some rule ∧ call_data c = obj u ∧
                                call_result c = (validate rule u).1) →
              r = (validate rule (world st)).1 →
              (mkCall i (obj (world st)) r :: tail) !! k = Some c →
              ∃ rule' u, (rule :: rest) !! k = Some rule' ∧ call_data c = obj u ∧
                         call_result c = (validate rule' u).1) as Hhead.
    { intros r tail [|k] c Htail Hr; cbn.
      - intros [= <-]. by exists rule, (world st).
      - apply Htail. }
    destruct (validate rule (world st)) as [[[]|e] w'] eqn:Hrule.
    + destruct (IH (S i) (mkMachine w' (calls st ++ [mkCall i (obj (world st)) (Ok true)])))
        as (cs & Hcs & Hties).
      exists (mkCall i (obj (world st)) (Ok true) :: cs).
      rewrite Hcs. cbn. rewrite <- app_assoc. split; [done|].
      intros k c. by apply Hhead.
    + exists [mkCall i (obj (world st)) (Ok false)]. cbn. split; [done|].
      intros k c. apply Hhead; [|done]. by intros k' c'.
    + exists [mkCall i (obj (world st)) (Raise e)]. cbn. split; [done|].
      intros k c. apply Hhead; [|done]. by intros k' c'.
Qed.

(** Over rules with definite verdicts on the data, the recorded results are
    these verdicts in list order, up to and including the first false. *)
Lemma for_rules_results {X} (d : dict) (rules : list (IValidationRule X)) bs :
  Forall2 (returns_on d) rules bs →
  ∀ i st, obj (world st) = d →
    ∃ cs,
      calls (RegistrationService.for_rules i rules st).2 = (calls st ++ cs)%list ∧
      map call_result cs = map Ok (upto_first_false bs) ∧
      Forall (λ c, call_data c = d) cs.
Proof.
  induction 1 as [|rule b rest bs Hrule _ IH]; intros i st Hd.
  - exists []. cbn. rewrite app_nil_r. repeat split. apply Forall_nil_2.
  - rewrite for_rules_cons. destruct (Hrule (world st) Hd) as [Hr Ho].
    destruct (validate rule (world st)) as [r w']. cbn in Hr, Ho. subst r.
    destruct b.
    + destruct (IH (S i) (mkMachine w' (calls st ++ [mkCall i (obj (world st)) (Ok true)])) Ho)
        as (cs & Hcs & Hres & Hdata).
      exists (mkCall i (obj (world st)) (Ok true) :: cs).
      rewrite Hcs. cbn. rewrite <- app_assoc, Hres. repeat split.
      by apply Forall_cons_2.
    + exists [mkCall i (obj (world st)) (Ok false)]. cbn. repeat split.
      by apply Forall_singleton.
Qed.

(** The verdicts of the provided rules on given data. *)
Lemma SksLimitRule_returns_on {X} (d : dict) (n max_sks : Z) :
  d !! "total_sks" = Some (VInt n) → n ≤ max_sks →
  returns_on d (@SksLimitRule.new X max_sks) true.
Proof.
  intros Hn Hle w <-. unfold SksLimitRule.new. cbn [validate].
  rewrite (SksLimitRule_on_int max_sks n w) by (by rewrite Hn).
  destruct (Z.ltb_spec max_sks n); [lia | done].
Qed.

Lemma PrerequisiteRule_returns_on {X} (d : dict) (v : value) :
  d !! "prasyarat_ok" = Some v →
  returns_on d (@PrerequisiteRule.new X) (truthy v).
Proof.
  intros Hv w <-. unfold PrerequisiteRule.new, PrerequisiteRule.validate, dict_get.
  exec. rewrite Hv. cbn. by destruct (truthy v).
Qed.

Lemma JadwalBentrokRule_returns_on {X} (d : dict) (v : value) :
  d !! "jadwal_bentrok" = Some v →
  returns_on d (@JadwalBentrokRule.new X) (negb (truthy v)).
Proof.
  intros Hv w <-. unfold JadwalBentrokRule.new, JadwalBentrokRule.validate, dict_get.
  exec. rewrite Hv. cbn. by destruct (truthy v).
Qed.

(** C1. The service calls the rules in list order: the call recorded at
    position [k] is a run of the rule at position [k].  The recorded
    results are true up to the first rule that does not return true, after
    which no rule is called; the service returns true exactly when every
    rule was called and returned true.  When each rule's [validate(data)]
    returns a definite verdict on the data, every rule called was handed
    that data, the recorded results are the rules' verdicts in list order
    up to and including the first false, and the service returns the
    conjunction of all verdicts. *)
Theorem validate_short_circuits {X} (rules : list (IValidationRule X))
    (w : World dict X) :
  let res := run (RegistrationService.validate (RegistrationService.new rules)) w in
  map call_index (calls res.2) = seq 0 (length (calls res.2)) ∧
  short_circuit (length rules) (map call_result (calls res.2)) res.1 ∧
  (res.1 = Ok true ↔
     length (calls res.2) = length rules ∧
     Forall (λ c, call_result c = Ok true) (calls res.2)) ∧
  (∀ bs, Forall2 (returns_on (obj w)) rules bs → res.1 = Ok (forallb id bs)) ∧
  (∀ k c,
     calls res.2 !! k = Some c →
     ∃ rule u,
       rules !! k = Some rule ∧ call_data c = obj u ∧
       call_result c = (validate rule u).1) ∧
  (∀ bs,
     Forall2 (returns_on (obj w)) rules bs →
     map call_result (calls res.2) = map Ok (upto_first_false bs) ∧
     Forall (λ c, call_data c = obj w) (calls res.2)).
Proof.
  cbv zeta. rewrite validate_unfold.
  set (st0 := mkMachine (logged INFO "=== MULAI VALIDASI REGISTRASI ===" w) []).
  destruct (for_rules_trace rules 0 st0) as (cs & Hcs & Hidx & Hsc).
  destruct (for_rules_ties rules 0 st0) as (cs' & Hcs' & Hties).
  pose proof (λ bs H, for_rules_verdicts (obj w) rules bs H 0%nat st0 eq_refl) as Hv.
  pose proof (λ bs H, for_rules_results (obj w) rules bs H 0%nat st0 eq_refl) as Hres.
  cbn in Hcs, Hcs'.
  destruct (RegistrationService.for_rules 0 rules st0) as [[[b|]|e] st];
    cbn in Hcs, Hcs', Hsc, Hv, Hres |- *; subst cs cs';
    (split; [done|]); (split; [done|]);
    (split;
     [by rewrite (short_circuit_all_true _ _ _ Hsc), List.length_map,
        List.Forall_map|]);
    (split; [|split; [done|]]); intros bs Hbs.
  - specialize (Hv bs Hbs).
    destruct (forallb id bs); [discriminate | by injection Hv as ->].
  - destruct (Hres bs Hbs) as (cs & Hcs & Hr & Hd). cbn in Hcs. by subst cs.
  - specialize (Hv bs Hbs). destruct (forallb id bs); [done | discriminate].
  - destruct (Hres bs Hbs) as (cs & Hcs & Hr & Hd). cbn in Hcs. by subst cs.
  - specialize (Hv bs Hbs). discriminate.
  - destruct (Hres bs Hbs) as (cs & Hcs & Hr & Hd). cbn in Hcs. by subst cs.
Qed.

Lemma validate_short_circuits_witness :
  let res :=
    run (RegistrationService.validate
           (RegistrationService.new
              [PrerequisiteRule.new; SksLimitRule.new 24; JadwalBentrokRule.new]))
        (mkWorld (<["prasyarat_ok" := VBool false]> data_mhs) [] tt) in
  res.1 = Ok false ∧ map call_result (calls res.2) = [Ok false].
Proof.
  intros res.
  assert (Forall2 (returns_on (<["prasyarat_ok" := VBool false]> data_mhs))
            [@PrerequisiteRule.new unit; SksLimitRule.new 24; JadwalBentrokRule.new]
            [false; true; true]) as Hbs.
  { apply List.Forall2_cons.
    { apply (PrerequisiteRule_returns_on _ (VBool false)). reflexivity. }
    apply List.Forall2_cons.
    { apply (SksLimitRule_returns_on _ 22 24); [reflexivity | lia]. }
    apply List.Forall2_cons.
    { apply (JadwalBentrokRule_returns_on _ (VBool false)). reflexivity. }
    apply List.Forall2_nil. }
  destruct (validate_short_circuits
              [PrerequisiteRule.new; SksLimitRule.new 24; JadwalBentrokRule.new]
              (mkWorld (<["prasyarat_ok" := VBool false]> data_mhs) [] tt))
    as (_ & _ & _ & Hverdict & _ & Hresults).
  split.
  - exact (Hverdict _ Hbs).
  - exact (proj1 (Hresults _ Hbs)).
Defined.

(** The provided rules only read the data and log. *)
Lemma SksLimitRule_read_only {X} max_sks :
  read_only (validate (@SksLimitRule.new X max_sks)).
Proof.
  intros w. unfold SksLimitRule.new. cbn [validate]. rewrite SksLimitRule_unfold.
  cbv zeta. destruct (gt _ _) as [[]|e]; [|done..].
  destruct (str _); [destruct (str _)|]; done.
Qed.

Lemma PrerequisiteRule_read_only {X} :
  read_only (validate (@PrerequisiteRule.new X)).
Proof.
  intros w. unfold PrerequisiteRule.new, PrerequisiteRule.validate, dict_get. exec.
  destruct (truthy _); reflexivity.
Qed.

Lemma JadwalBentrokRule_read_only {X} :
  read_only (validate (@JadwalBentrokRule.new X)).
Proof.
  intros w. unfold JadwalBentrokRule.new, JadwalBentrokRule.validate, dict_get. exec.
  destruct (truthy _); reflexivity.
Qed.

Lemma for_rules_data {X} (d : dict) (rules : list (IValidationRule X)) :
  Forall (λ rule, read_only (validate rule)) rules →
  ∀ i st,
    obj (world st) = d → Forall (λ c, call_data c = d) (calls st) →
    obj (world (RegistrationService.for_rules i rules st).2) = d ∧
    Forall (λ c, call_data c = d) (calls (RegistrationService.for_rules i rules st).2).
Proof.
  induction 1 as [|rule rest Hrule _ IH]; intros i st Hd Hcalls; [done|].
  rewrite for_rules_cons. specialize (Hrule (world st)).
  assert (Forall (λ c, call_data c = d)
            (calls st ++ [mkCall i (obj (world st)) (Ok true)])) as Hcalls'
    by (apply Forall_app; split; [done | by apply Forall_singleton]).
  destruct (validate rule (world st)) as [[[]|e] w']; cbn in Hrule.
  - apply IH; cbn; [congruence | done].
  - cbn. split; [congruence|].
    apply Forall_app. split; [done | by apply Forall_singleton].
  - cbn. split; [congruence|].
    apply Forall_app. split; [done | by apply Forall_singleton].
Qed.

(** C7. Each provided rule leaves the data mapping as it is, and so does
    the service over any list of rules that do: the data after
    [validate] is the data before, and every rule was handed that same
    data. *)
Theorem validation_leaves_data {X} :
  (∀ max_sks, read_only (validate (@SksLimitRule.new X max_sks))) ∧
  read_only (validate (@PrerequisiteRule.new X)) ∧
  read_only (validate (@JadwalBentrokRule.new X)) ∧
  ∀ (rules : list (IValidationRule X)) (w : World dict X),
    Forall (λ rule, read_only (validate rule)) rules →
    let st := (run (RegistrationService.validate (RegistrationService.new rules)) w).2 in
    obj (world st) = obj w ∧ Forall (λ c, call_data c = obj w) (calls st).
Proof.
  split; [apply SksLimitRule_read_only|].
  split; [apply PrerequisiteRule_read_only|].
  split; [apply JadwalBentrokRule_read_only|].
  intros rules w Hrules. rewrite validate_unfold.
  set (st0 := mkMachine (logged INFO "=== MULAI VALIDASI REGISTRASI ===" w) []).
  destruct (for_rules_data (obj w) rules Hrules 0%nat st0) as [Ho Hc];
    [reflexivity | apply Forall_nil_2 |].
  destruct (RegistrationService.for_rules 0 rules st0) as [[[b|]|e] st]; done.
Qed.

Lemma validation_leaves_data_witness :
  obj (world (run (RegistrationService.validate
                     (RegistrationService.new
                        [SksLimitRule.new 24; PrerequisiteRule.new;
                         JadwalBentrokRule.new]))
                  (mkWorld data_mhs [] tt)).2) = data_mhs.
Proof.
  destruct (@validation_leaves_data unit) as (Hs & Hp & Hj & H).
  apply (H [SksLimitRule.new 24; PrerequisiteRule.new; JadwalBentrokRule.new]
           (mkWorld data_mhs [] tt)).
  apply Forall_cons_2; [apply Hs|].
  apply Forall_cons_2; [apply Hp|].
  apply Forall_cons_2; [apply Hj|]. apply Forall_nil_2.
Defined.

(** The script's main block: [data_mhs] passes all three rules. *)
Example main_block :
  (run (RegistrationService.validate
          (RegistrationService.new
             [SksLimitRule.new 24; PrerequisiteRule.new; JadwalBentrokRule.new]))
       (mkWorld data_mhs [] tt)).1 = Ok true.
Proof. reflexivity. Qed.
End RegistrationProps.

(** * Further behaviour of the checkout code *)

Module CheckoutBehaviour.
Import Kode11 CheckoutService CheckoutSpec CheckoutDoubles PyProps CheckoutProps.

(** [process_checkout], path by path. *)
Lemma process_checkout_unfold {X} (payment_method : string) (w : World Order X) :
  let info := mkLogRecord INFO LOGGER in
  let opening := info ("Memulai checkout untuk " ++ customer_name (obj w) ++ "...") in
  let notified := info ("Mengirim notifikasi ke " ++ customer_name (obj w) ++ "...") in
  let paid branch :=
    (Ok true,
     mkWorld (set_status "paid" (obj w))
       (log w ++ [opening; info branch; notified]) (ext w)) in
  OrderManager.process_checkout payment_method w =
  if String.eqb payment_method "credit_card" then paid "Processing Credit Card..."
  else if String.eqb payment_method "bank_transfer" then paid "Processing Bank Transfer..."
  else (Ok false, mkWorld (obj w) (log w ++ [opening; info "Metode tidak valid."]) (ext w)).
Proof.
  cbv zeta. unfold OrderManager.process_checkout. exec.
  destruct (String.eqb payment_method "credit_card"); cbn;
    [by rewrite <- !app_assoc|].
  destruct (String.eqb payment_method "bank_transfer"); cbn;
    by rewrite <- !app_assoc.
Qed.

(** X1. The pre-refactor [process_checkout] never raises.  It returns true
    exactly for the methods "credit_card" and "bank_transfer", and then the
    order is the given one with status "paid"; for any other method it
    returns false and the order is untouched.  Either way it only appends
    INFO records to the log and leaves the rest of the heap alone. *)
Theorem process_checkout_outcome {X} (payment_method : string)
    (w : World Order X) :
  let res := OrderManager.process_checkout payment_method w in
  let known := payment_method = "credit_card" ∨ payment_method = "bank_transfer" in
  (res.1 = Ok true ↔ known) ∧
  (res.1 = Ok false ↔ ¬ known) ∧
  (known → obj res.2 = set_status "paid" (obj w)) ∧
  (¬ known → obj res.2 = obj w) ∧
  ext res.2 = ext w ∧
  ∃ new, log res.2 = (log w ++ new)%list ∧ Forall (λ r, levelname r = INFO) new.
Proof.
  cbv zeta. rewrite process_checkout_unfold.
  destruct (String.eqb_spec payment_method "credit_card") as [Hcc | Hcc];
    [|destruct (String.eqb_spec payment_method "bank_transfer") as [Hbt | Hbt]];
    cbn; repeat split; try done; try tauto;
    eexists; (split; [reflexivity|]); repeat constructor.
Qed.

Lemma process_checkout_outcome_witness :
  let w0 := mkWorld (Order_new "Andi" (VInt 500000)) [] tt in
  obj (OrderManager.process_checkout "bank_transfer" w0).2
  = mkOrder "Andi" (VInt 500000) "paid" ∧
  obj (OrderManager.process_checkout "qris" w0).2 = Order_new "Andi" (VInt 500000).
Proof.
  intros w0. split.
  - apply (process_checkout_outcome "bank_transfer" w0). right. reflexivity.
  - apply (process_checkout_outcome "qris" w0). intros [H | H]; discriminate H.
Defined.

(** X2. The refactoring keeps the credit-card path wherever the total
    formats: the pre-refactor [process_checkout(order, "credit_card")] and
    the refactored [run_checkout] with [CreditCardProcessor] and
    [EmailNotifier] then return the same value and leave the same order and
    the same rest of the heap.  On an [int] total of more than 4300 digits
    they part: the old method, which never formats the total, still returns
    true and marks the order, while [run_checkout] raises [ValueError] and
    changes nothing.  A method the old class does not know is refused there
    and the order left as it was, while the refactored service takes it
    once a processor such as [QrisProcessor] is plugged in. *)
Theorem refactoring_agrees {X} (w : World Order X) :
  let legacy := OrderManager.process_checkout "credit_card" w in
  let refactored :=
    run (run_checkout (new CreditCardProcessor.new EmailNotifier.new)) w in
  let fits :=
    ∀ n, total_price (obj w) = VInt n → (digits n ≤ int_max_str_digits)%nat in
  (fits →
   legacy.1 = refactored.1 ∧
   obj legacy.2 = obj (world refactored.2) ∧
   ext legacy.2 = ext (world refactored.2)) ∧
  (∀ n,
     total_price (obj w) = VInt n → (int_max_str_digits < digits n)%nat →
     legacy.1 = Ok true ∧ obj legacy.2 = set_status "paid" (obj w) ∧
     ∃ msg, refactored = (Raise (ValueError msg), mkMachine w [])) ∧
  ∀ payment_method,
    payment_method ≠ "credit_card" → payment_method ≠ "bank_transfer" →
    let refused := OrderManager.process_checkout payment_method w in
    let plugged :=
      run (run_checkout (new QrisProcessor.new EmailNotifier.new)) w in
    refused.1 = Ok false ∧ obj refused.2 = obj w ∧
    (fits →
     plugged.1 = Ok true ∧ obj (world plugged.2) = set_status "paid" (obj w)).
Proof.
  cbv zeta. split; [|split].
  - intros Hfits. destruct (str_fits _ Hfits) as [total Htotal].
    rewrite run_checkout_unfold, Htotal. by repeat split.
  - intros n Hn Hlong. split; [done|]. split; [done|].
    rewrite run_checkout_unfold, Hn. cbn [str].
    destruct (str_of_int_too_long n Hlong) as [msg ->]. by exists msg.
  - intros payment_method Hcc Hbt.
    rewrite process_checkout_unfold.
    apply String.eqb_neq in Hcc, Hbt. rewrite Hcc, Hbt.
    split; [done|]. split; [done|].
    intros Hfits. destruct (str_fits _ Hfits) as [total Htotal].
    rewrite run_checkout_unfold, Htotal. by split.
Qed.

Lemma refactoring_agrees_witness :
  let w0 := mkWorld (Order_new "Budi" (VInt 100000)) [] tt in
  (OrderManager.process_checkout "credit_card" w0).1
  = (run (run_checkout (new CreditCardProcessor.new EmailNotifier.new)) w0).1 ∧
  (OrderManager.process_checkout "qris" w0).1 = Ok false ∧
  (run (run_checkout (new QrisProcessor.new EmailNotifier.new)) w0).1 = Ok true.
Proof.
  intros w0.
  assert (∀ n, total_price (obj w0) = VInt n → (digits n ≤ int_max_str_digits)%nat)
    as Hfits by (intros n [= <-]; apply Nat.leb_le; reflexivity).
  destruct (refactoring_agrees w0) as (Hsame & _ & H).
  destruct (Hsame Hfits) as (Hr & _).
  destruct (H "qris") as (Hq & _ & Hp).
  - discriminate.
  - discriminate.
  - split; [exact Hr|]. split; [exact Hq|]. exact (proj1 (Hp Hfits)).
Defined.

(** X3. [run_checkout] does not look at the status it finds.  After a
    successful checkout, with strategies that leave the order alone, a
    second checkout of the same order runs as on a fresh one: it calls its
    processor once, on the order as the first checkout left it, and if that
    returns true calls its notifier once, on that same order; it ends in
    the world these calls left (plus its closing or error line), with the
    order as the first checkout left it, status "paid". *)
Theorem second_checkout {X} (P P' : IPaymentProcessor X)
    (N N' : INotificationService X) (w : World Order X) (total : string) :
  let first := run (run_checkout (new P N)) w in
  let second := run (run_checkout (new P' N')) (world first.2) in
  str (total_price (obj w)) = Ok total →
  first.1 = Ok true →
  read_only (process P) → read_only (send N) →
  read_only (process P') → read_only (send N') →
  let called := process P' (started total (world first.2)) in
  let sent := send N' (marked_paid called.2) in
  status (obj (world first.2)) = "paid" ∧
  obj (world second.2) = obj (world first.2) ∧
  calls second.2
  = (CallProcess (obj (world first.2)) called.1
     :: if called.1 is Ok true then [CallSend (obj (world first.2)) sent.1] else [])%list ∧
  second.1
  = (match called.1 with
     | Ok true => match sent.1 with Ok _ => Ok true | Raise e => Raise e end
     | Ok false => Ok false
     | Raise e => Raise e
     end) ∧
  world second.2
  = (match called.1 with
     | Ok true =>
         match sent.1 with
         | Ok _ => logged INFO "Checkout Sukses. Status pesanan: PAID" sent.2
         | Raise _ => sent.2
         end
     | Ok false => logged ERROR "Pembayaran gagal. Transaksi di batalkan" called.2
     | Raise _ => called.2
     end).
Proof.
  cbv zeta. intros Htotal Hfirst HP HN HP' HN'.
  assert (obj (world (run (run_checkout (new P N)) w).2) = set_status "paid" (obj w))
    as Hobj.
  { rewrite (run_checkout_status P N w HP HN), Htotal.
    revert Hfirst. rewrite run_checkout_unfold, Htotal.
    destruct (process P (started total w)) as [[[]|e] w1]; [done|done..]. }
  set (w' := world (run (run_checkout (new P N)) w).2) in *.
  assert (set_status "paid" (obj w') = obj w') as Hmark by (by rewrite Hobj).
  split; [by rewrite Hobj|].
  rewrite run_checkout_unfold.
  assert (str (total_price (obj w')) = Ok total) as -> by (by rewrite Hobj).
  pose proof (HP' (started total w')) as HP1. rewrite obj_started in HP1.
  destruct (process P' (started total w')) as [[[]|e] w1]; cbn [fst snd] in HP1 |- *.
  - pose proof (HN' (marked_paid w1)) as HN1.
    assert (obj (marked_paid w1) = obj w') as Hsame
      by (unfold marked_paid; cbn; by rewrite HP1).
    rewrite Hsame in HN1.
    destruct (send N' (marked_paid w1)) as [[u|e] w2]; cbn in HN1 |- *;
      rewrite ?Hsame, ?HP1, ?Hmark; by repeat split.
  - cbn. by rewrite HP1.
  - cbn. by rewrite HP1.
Qed.

Lemma second_checkout_witness :
  let first :=
    run (run_checkout (new CreditCardProcessor.new EmailNotifier.new))
        (mkWorld (Order_new "Andi" (VInt 500000)) [] tt) in
  let second :=
    run (run_checkout (new QrisProcessor.new EmailNotifier.new)) (world first.2) in
  obj (world second.2) = mkOrder "Andi" (VInt 500000) "paid" ∧
  calls second.2
  = [CallProcess (mkOrder "Andi" (VInt 500000) "paid") (Ok true);
     CallSend (mkOrder "Andi" (VInt 500000) "paid") (Ok tt)] ∧
  length (log (world second.2)) = 8%nat.
Proof.
  intros first second.
  destruct (second_checkout CreditCardProcessor.new QrisProcessor.new
              EmailNotifier.new EmailNotifier.new
              (mkWorld (Order_new "Andi" (VInt 500000)) [] tt) "500000")
    as (_ & Hobj & Hcalls & _ & Hworld).
  - reflexivity.
  - reflexivity.
  - intros w. reflexivity.
  - intros w. reflexivity.
  - intros w. reflexivity.
  - intros w. reflexivity.
  - split; [exact Hobj|]. split; [exact Hcalls|].
    fold first second in Hworld. rewrite Hworld. reflexivity.
Defined.

(** X4. Exceptions pass through [run_checkout], and nothing is undone.
    Once the opening line is logged: if the processor raises,
    [run_checkout] raises the same exception, the notifier is not called
    and the world is as the processor left it.  If the notifier raises,
    [run_checkout] raises the same exception and the world is as the
    notifier left it: the closing line is not logged, and the order,
    already marked, keeps status "paid" (the notifier leaving the order
    alone).  If the total does not format, that exception leaves
    [run_checkout] before anything is called or changed. *)
Theorem run_checkout_exceptions {X} (P : IPaymentProcessor X)
    (N : INotificationService X) (w : World Order X) (e : exn) :
  let res := run (run_checkout (new P N)) w in
  (∀ total,
     str (total_price (obj w)) = Ok total →
     ((process P (started total w)).1 = Raise e →
      res.1 = Raise e ∧
      world res.2 = (process P (started total w)).2 ∧
      count is_send (calls res.2) = 0%nat) ∧
     (∀ w1,
        process P (started total w) = (Ok true, w1) →
        (send N (marked_paid w1)).1 = Raise e →
        res.1 = Raise e ∧
        world res.2 = (send N (marked_paid w1)).2 ∧
        (read_only (send N) → status (obj (world res.2)) = "paid"))) ∧
  (str (total_price (obj w)) = Raise e → res = (Raise e, mkMachine w [])).
Proof.
  cbv zeta. rewrite run_checkout_unfold. split; [|by intros ->].
  intros total ->. split.
  - destruct (process P (started total w)) as [[[]|e'] w1]; cbn; [done..|].
    by intros [= ->].
  - intros w1 -> Hsend.
    pose proof (λ H : read_only (send N), H (marked_paid w1)) as HN.
    destruct (send N (marked_paid w1)) as [[u|e'] w2]; cbn in Hsend, HN |- *;
      [done|].
    injection Hsend as ->. repeat split. intros H. by rewrite (HN H).
Qed.

Lemma run_checkout_exceptions_witness :
  let w0 := mkWorld (Order_new "Andi" (VInt 500000)) [] tt in
  let down := Exception "smtp down" in
  let res :=
    run (run_checkout (new CreditCardProcessor.new (RaisingNotifier.new down))) w0 in
  let declined :=
    run (run_checkout (new (RaisingProcessor.new down) EmailNotifier.new)) w0 in
  (res.1 = Raise down ∧ status (obj (world res.2)) = "paid") ∧
  (declined.1 = Raise down ∧ count is_send (calls declined.2) = 0%nat).
Proof.
  intros w0 down res declined. split.
  - destruct (run_checkout_exceptions CreditCardProcessor.new
                (RaisingNotifier.new down) w0 down) as [H _].
    destruct (H "500000" eq_refl) as [_ H'].
    destruct (H' (CreditCardProcessor.process (started "500000" w0)).2)
      as (Hr & _ & Hs).
    + reflexivity.
    + reflexivity.
    + split; [exact Hr|]. apply Hs. intros w. reflexivity.
  - destruct (run_checkout_exceptions (RaisingProcessor.new down)
                EmailNotifier.new w0 down) as [H _].
    destruct (H "500000" eq_refl) as [H' _].
    destruct H' as (Hr & _ & Hc); [reflexivity|].
    split; [exact Hr | exact Hc].
Defined.

(** X5. The last log record tells how [run_checkout] ended, whatever the
    strategies logged: after a true result it is the INFO line
    "Checkout Sukses. Status pesanan: PAID", after a false result the ERROR
    line "Pembayaran gagal. Transaksi di batalkan". *)
Theorem run_checkout_closing_record {X} (P : IPaymentProcessor X)
    (N : INotificationService X) (w : World Order X) :
  let res := run (run_checkout (new P N)) w in
  (res.1 = Ok true →
   last (log (world res.2))
   = Some (mkLogRecord INFO LOGGER "Checkout Sukses. Status pesanan: PAID")) ∧
  (res.1 = Ok false →
   last (log (world res.2))
   = Some (mkLogRecord ERROR LOGGER "Pembayaran gagal. Transaksi di batalkan")).
Proof.
  cbv zeta. rewrite run_checkout_unfold.
  destruct (str (total_price (obj w))) as [total|e0]; [|by split].
  destruct (process P (started total w)) as [[[]|e] w1];
    [destruct (send N (marked_paid w1)) as [[u|e] w2]|..]; cbn;
    split; intros H; try done; apply last_snoc.
Qed.

Lemma run_checkout_closing_record_witness :
  last (log (world (run (run_checkout (new (StubProcessor.new false) EmailNotifier.new))
                        (mkWorld (Order_new "Budi" (VInt 100000)) [] tt)).2))
  = Some (mkLogRecord ERROR LOGGER "Pembayaran gagal. Transaksi di batalkan").
Proof.
  apply (run_checkout_closing_record (StubProcessor.new false) EmailNotifier.new
           (mkWorld (Order_new "Budi" (VInt 100000)) [] tt)).
  reflexivity.
Defined.

(** X6. With the provided strategies, a checkout of an order whose total
    is an [int] of at most 4300 digits appends exactly four INFO records to
    the log, in this order: the opening line with the customer's name and
    the total in decimal, the processor's line, the notifier's line with the
    customer's name, the closing line.  Earlier records are kept and the
    rest of the heap is left alone. *)
Theorem provided_checkout_log {X} (w : World Order X) (n : Z) :
  total_price (obj w) = VInt n → (digits n ≤ int_max_str_digits)%nat →
  let info := mkLogRecord INFO LOGGER in
  let opening :=
    info ("Memulai checkout untuk " ++ customer_name (obj w)
          ++ ". Total: " ++ NilZero.string_of_int (Z.to_int n)) in
  let notified :=
    info ("Notif: Mengirim email konfirmasi ke " ++ customer_name (obj w) ++ ".") in
  let closing := info "Checkout Sukses. Status pesanan: PAID" in
  let cc := run (run_checkout (new CreditCardProcessor.new EmailNotifier.new)) w in
  let qris := run (run_checkout (new QrisProcessor.new EmailNotifier.new)) w in
  log (world cc.2)
  = (log w ++ [opening; info "Payment: Memproses Kartu Kredit."; notified; closing])%list ∧
  log (world qris.2)
  = (log w ++ [opening; info "Payment: Memproses QRIS."; notified; closing])%list ∧
  ext (world cc.2) = ext w ∧ ext (world qris.2) = ext w.
Proof.
  intros Hn Hfits. cbv zeta. rewrite !run_checkout_unfold, Hn. cbn [str].
  rewrite (str_of_int_fits n Hfits).
  unfold started, marked_paid, logged, CreditCardProcessor.new,
    QrisProcessor.new, EmailNotifier.new, CreditCardProcessor.process,
    QrisProcessor.process, EmailNotifier.send.
  exec. rewrite <- !app_assoc. done.
Qed.

Lemma provided_checkout_log_witness :
  map message
    (log (world (run (run_checkout (new QrisProcessor.new EmailNotifier.new))
                     (mkWorld (Order_new "Budi" (VInt 100000)) [] tt)).2))
  = ["Memulai checkout untuk Budi. Total: 100000";
     "Payment: Memproses QRIS.";
     "Notif: Mengirim email konfirmasi ke Budi.";
     "Checkout Sukses. Status pesanan: PAID"].
Proof.
  destruct (provided_checkout_log
              (mkWorld (Order_new "Budi" (VInt 100000)) [] tt) 100000)
    as (_ & Hq & _).
  - reflexivity.
  - apply Nat.leb_le. reflexivity.
  - rewrite Hq. reflexivity.
Defined.

End CheckoutBehaviour.

(** * Further behaviour of the registration code *)

Module RegistrationBehaviour.
Import LatihanMandiri RegistrationSpec RegistrationTerms PyProps RegistrationProps.

Lemma gt_numeric (v : value) (n m : Z) :
  as_int v = Some n → gt v (VInt m) = Ok (m <? n).
Proof. intros Hn. unfold gt. by rewrite Hn. Qed.

Lemma gt_non_numeric (v : value) (m : Z) :
  as_int v = None →
  gt v (VInt m)
  = Raise (TypeError ("'>' not supported between instances of '"
                      ++ type_name v ++ "' and 'int'")).
Proof. by destruct v. Qed.

(** A number within the digit limit formats; one past it does not. *)
Lemma str_number_fits (v : value) (n : Z) :
  as_int v = Some n → (digits n ≤ int_max_str_digits)%nat → ∃ s, str v = Ok s.
Proof.
  intros Hn Hfit. apply str_fits. intros m ->. injection Hn as ->. done.
Qed.

Lemma str_number_too_long (v : value) (n : Z) :
  as_int v = Some n → (int_max_str_digits < digits n)%nat →
  ∃ msg, str v = Raise (ValueError msg).
Proof.
  intros Hn Hlong. destruct v as [|b|m|s]; try done.
  - destruct b; injection Hn as <-; vm_compute in Hlong; lia.
  - injection Hn as ->. by apply str_of_int_too_long.
Qed.

(** The verdicts of the provided rules, with the defaults of [data.get]. *)
Lemma SksLimitRule_decides {X} (d : dict) (n max_sks : Z) :
  as_int (default (VInt 0) (d !! "total_sks")) = Some n → n ≤ max_sks →
  returns_on d (@SksLimitRule.new X max_sks) true.
Proof.
  intros Hn Hle w <-. unfold SksLimitRule.new. cbn [validate].
  rewrite SksLimitRule_unfold. cbv zeta. rewrite (gt_numeric _ _ _ Hn).
  destruct (Z.ltb_spec max_sks n); [lia | done].
Qed.

Lemma PrerequisiteRule_decides {X} (d : dict) :
  returns_on d (@PrerequisiteRule.new X)
    (truthy (default (VBool false) (d !! "prasyarat_ok"))).
Proof.
  intros w <-. unfold PrerequisiteRule.new, PrerequisiteRule.validate, dict_get.
  exec. by destruct (truthy _).
Qed.

Lemma JadwalBentrokRule_decides {X} (d : dict) :
  returns_on d (@JadwalBentrokRule.new X)
    (negb (truthy (default (VBool false) (d !! "jadwal_bentrok")))).
Proof.
  intros w <-. unfold JadwalBentrokRule.new, JadwalBentrokRule.validate, dict_get.
  exec. by destruct (truthy _).
Qed.

(** Rules with definite verdicts on the data: the service returns their
    conjunction. *)
Lemma validate_verdicts {X} (rules : list (IValidationRule X)) bs w :
  Forall2 (returns_on (obj w)) rules bs →
  (run (RegistrationService.validate (RegistrationService.new rules)) w).1
  = Ok (forallb id bs).
Proof.
  intros Hbs. rewrite validate_unfold.
  pose proof (for_rules_verdicts (obj w) rules bs Hbs 0%nat
                (mkMachine (logged INFO "=== MULAI VALIDASI REGISTRASI ===" w) [])
                eq_refl) as Hv.
  destruct (RegistrationService.for_rules _ _ _) as [[[b|]|e] st]; cbn in Hv |- *;
    destruct (forallb id bs); congruence.
Qed.

(** A first rule that does not return true decides the outcome. *)
Lemma first_rule_stops {X} (rule : IValidationRule X)
    (rest : list (IValidationRule X)) (w : World dict X) (r : result bool) :
  (validate rule (logged INFO "=== MULAI VALIDASI REGISTRASI ===" w)).1 = r →
  r ≠ Ok true →
  (run (RegistrationService.validate (RegistrationService.new (rule :: rest))) w).1
  = r.
Proof.
  intros Hr Hnot. rewrite validate_unfold, for_rules_cons. cbn [world].
  destruct (validate rule _) as [[[]|e] w']; cbn in Hr |- *; by subst r.
Qed.

(** The outcome of the script's rule list, from the three entries it reads. *)
Lemma configured_outcome {X} (max_sks : Z) (w : World dict X) :
  let total_sks := default (VInt 0) (obj w !! "total_sks") in
  let prasyarat_ok := default (VBool false) (obj w !! "prasyarat_ok") in
  let bentrok := default (VBool false) (obj w !! "jadwal_bentrok") in
  (run (RegistrationService.validate
          (RegistrationService.new
             [SksLimitRule.new max_sks; PrerequisiteRule.new; JadwalBentrokRule.new]))
       w).1
  = match gt total_sks (VInt max_sks) with
    | Raise e => Raise e
    | Ok false => Ok (truthy prasyarat_ok && negb (truthy bentrok))
    | Ok true =>
        match str total_sks with
        | Raise e => Raise e
        | Ok _ =>
            match str_of_int max_sks with
            | Raise e => Raise e
            | Ok _ => Ok false
            end
        end
    end.
Proof.
  cbv zeta.
  assert (∀ r,
            (SksLimitRule.validate (SksLimitRule.init max_sks)
               (logged INFO "=== MULAI VALIDASI REGISTRASI ===" w)).1 = r →
            r ≠ Ok true →
            (run (RegistrationService.validate
                    (RegistrationService.new
                       [SksLimitRule.new max_sks; PrerequisiteRule.new;
                        JadwalBentrokRule.new])) w).1 = r) as Hstop
    by (intros r; apply (first_rule_stops (SksLimitRule.new max_sks))).
  rewrite SksLimitRule_unfold in Hstop. cbv zeta in Hstop.
  change (obj (logged INFO "=== MULAI VALIDASI REGISTRASI ===" w)) with (obj w)
    in Hstop.
  destruct (as_int (default (VInt 0) (obj w !! "total_sks"))) as [n|] eqn:Hn.
  - rewrite (gt_numeric _ _ _ Hn) in *.
    destruct (Z.ltb_spec max_sks n) as [Hlt | Hle].
    + destruct (str (default (VInt 0) (obj w !! "total_sks"))) as [total|e];
        [|by apply Hstop].
      change (str (VInt max_sks)) with (str_of_int max_sks) in Hstop.
      destruct (str_of_int max_sks) as [limit|e]; by apply Hstop.
    + rewrite (validate_verdicts _
                 [true; truthy (default (VBool false) (obj w !! "prasyarat_ok"));
                  negb (truthy (default (VBool false) (obj w !! "jadwal_bentrok")))]).
      * cbn. by rewrite andb_true_r.
      * apply List.Forall2_cons; [by apply (SksLimitRule_decides _ n)|].
        apply List.Forall2_cons; [apply PrerequisiteRule_decides|].
        apply List.Forall2_cons; [apply JadwalBentrokRule_decides|].
        apply List.Forall2_nil.
  - rewrite (gt_non_numeric _ _ Hn) in *. by apply Hstop.
Qed.

(** X7. The rule list of the script, for any limit and any data whose
    "total_sks" (0 when absent) is an [int] or [bool] of value [n].  When
    [n <= max_sks], the registration is accepted exactly when
    "prasyarat_ok" (False when absent) is truthy and "jadwal_bentrok"
    (False when absent) is not.  When [n > max_sks] it is refused, provided
    [n] and [max_sks] have at most 4300 decimal digits each; if one of them
    has more, the warning cannot be formatted and [ValueError] is raised
    instead. *)
Theorem configured_rules_verdict {X} (max_sks n : Z) (w : World dict X) :
  let total_sks := default (VInt 0) (obj w !! "total_sks") in
  let prasyarat_ok := default (VBool false) (obj w !! "prasyarat_ok") in
  let bentrok := default (VBool false) (obj w !! "jadwal_bentrok") in
  as_int total_sks = Some n →
  let res :=
    (run (RegistrationService.validate
            (RegistrationService.new
               [SksLimitRule.new max_sks; PrerequisiteRule.new;
                JadwalBentrokRule.new]))
         w).1 in
  (n ≤ max_sks → res = Ok (truthy prasyarat_ok && negb (truthy bentrok))) ∧
  (n > max_sks →
   (digits n ≤ int_max_str_digits)%nat →
   (digits max_sks ≤ int_max_str_digits)%nat →
   res = Ok false) ∧
  (n > max_sks →
   (int_max_str_digits < digits n)%nat ∨ (int_max_str_digits < digits max_sks)%nat →
   ∃ msg, res = Raise (ValueError msg)).
Proof.
  cbv zeta. intros Hn. rewrite configured_outcome. cbv zeta.
  rewrite (gt_numeric _ _ _ Hn).
  destruct (Z.ltb_spec max_sks n) as [Hlt | Hle].
  - split; [lia|]. split.
    + intros _ Hfit Hfit'.
      destruct (str_number_fits _ _ Hn Hfit) as [total ->].
      by rewrite (str_of_int_fits _ Hfit').
    + intros _ Hlong.
      destruct (Nat.le_gt_cases (digits n) int_max_str_digits) as [Hfit | Hn'].
      * destruct (str_number_fits _ _ Hn Hfit) as [total ->].
        destruct Hlong as [Hlong | Hlong]; [lia|].
        destruct (str_of_int_too_long _ Hlong) as [msg ->]. by exists msg.
      * destruct (str_number_too_long _ _ Hn Hn') as [msg ->]. by exists msg.
  - split; [done|]. split; intros; lia.
Qed.

Lemma configured_rules_verdict_witness :
  (run (RegistrationService.validate
          (RegistrationService.new
             [SksLimitRule.new 24; PrerequisiteRule.new; JadwalBentrokRule.new]))
       (mkWorld ({[ "prasyarat_ok" := VInt 1 ]} : dict) [] tt)).1
  = Ok true.
Proof.
  destruct (configured_rules_verdict 24 0
              (mkWorld ({[ "prasyarat_ok" := VInt 1 ]} : dict) [] tt))
    as (Hpass & _).
  - reflexivity.
  - etrans; [apply Hpass; lia | reflexivity].
Defined.

(** X8. A "total_sks" that is present but not a number (None, a string)
    is not replaced by the default: the comparison raises [TypeError].
    [SksLimitRule] then logs nothing and changes nothing, and a service
    whose first rule it is raises the same exception, having called no other
    rule and logged only its opening line. *)
Theorem non_numeric_total_sks_raises {X} (max_sks : Z)
    (rest : list (IValidationRule X)) (w : World dict X) (v : value) :
  obj w !! "total_sks" = Some v → as_int v = None →
  let err :=
    TypeError ("'>' not supported between instances of '"
               ++ type_name v ++ "' and 'int'") in
  let res :=
    run (RegistrationService.validate
           (RegistrationService.new (SksLimitRule.new max_sks :: rest))) w in
  SksLimitRule.validate (SksLimitRule.init max_sks) w = (Raise err, w) ∧
  res.1 = Raise err ∧
  length (calls res.2) = 1%nat ∧
  world res.2 = logged INFO "=== MULAI VALIDASI REGISTRASI ===" w.
Proof.
  intros Hv Hnum. cbv zeta.
  assert (∀ w' : World dict X, obj w' = obj w →
            SksLimitRule.validate (SksLimitRule.init max_sks) w'
            = (Raise (TypeError ("'>' not supported between instances of '"
                                 ++ type_name v ++ "' and 'int'")), w')) as Hsks.
  { intros w' Hw'. rewrite SksLimitRule_unfold. cbv zeta.
    rewrite Hw', Hv. cbn. by rewrite (gt_non_numeric _ _ Hnum). }
  split; [by apply Hsks|].
  rewrite validate_unfold, for_rules_cons.
  unfold SksLimitRule.new. cbn [validate world].
  rewrite Hsks by reflexivity. done.
Qed.

Lemma non_numeric_total_sks_raises_witness :
  (run (RegistrationService.validate
          (RegistrationService.new [SksLimitRule.new 24; PrerequisiteRule.new]))
       (mkWorld ({[ "total_sks" := VNone ]} : dict) [] tt)).1
  = Raise (TypeError "'>' not supported between instances of 'NoneType' and 'int'").
Proof.
  destruct (non_numeric_total_sks_raises 24 [PrerequisiteRule.new]
              (mkWorld ({[ "total_sks" := VNone ]} : dict) [] tt) VNone)
    as (_ & Hr & _); [reflexivity..|].
  exact Hr.
Defined.

Lemma provided_rules_log_one_record {X} (max_sks : Z) :
  logs_one_record (@SksLimitRule.new X max_sks) ∧
  logs_one_record (@PrerequisiteRule.new X) ∧
  logs_one_record (@JadwalBentrokRule.new X).
Proof.
  split; [|split]; intros w.
  - unfold SksLimitRule.new. cbn [validate].
    rewrite SksLimitRule_unfold. cbv zeta.
    destruct (gt _ _) as [[]|e]; [|by eexists|done].
    destruct (str _) as [total|e]; [|done].
    destruct (str _) as [limit|e]; [by eexists|done].
  - unfold PrerequisiteRule.new, PrerequisiteRule.validate, dict_get. exec.
    destruct (truthy _); cbn; by eexists.
  - unfold JadwalBentrokRule.new, JadwalBentrokRule.validate, dict_get. exec.
    destruct (truthy _); cbn; by eexists.
Qed.

(** X9. A provided rule that returns has appended exactly one record to
    the log, INFO when it returns true and WARNING when it returns false,
    and has changed nothing else; one that raises has changed nothing at
    all. *)
Theorem provided_rules_log_verdict {X} (max_sks : Z) (rule : IValidationRule X)
    (w : World dict X) :
  rule = SksLimitRule.new max_sks ∨ rule = PrerequisiteRule.new
  ∨ rule = JadwalBentrokRule.new →
  match validate rule w with
  | (Ok b, w') =>
      ∃ msg,
        w' = mkWorld (obj w)
               (log w ++ [mkLogRecord (if b then INFO else WARNING) LOGGER msg])
               (ext w)
  | (Raise e, w') => w' = w
  end.
Proof.
  intros [-> | [-> | ->]].
  - unfold SksLimitRule.new. cbn [validate].
    rewrite SksLimitRule_unfold. cbv zeta.
    destruct (gt _ _) as [[]|e]; [|by eexists|done].
    destruct (str _) as [total|e]; [|done].
    destruct (str _) as [limit|e]; [by eexists|done].
  - unfold PrerequisiteRule.new, PrerequisiteRule.validate, dict_get. exec.
    destruct (truthy _); cbn; by eexists.
  - unfold JadwalBentrokRule.new, JadwalBentrokRule.validate, dict_get. exec.
    destruct (truthy _); cbn; by eexists.
Qed.

Lemma provided_rules_log_verdict_witness :
  ∃ msg,
    (SksLimitRule.validate (SksLimitRule.init 24)
       (mkWorld ({[ "total_sks" := VInt 25 ]} : dict) [] tt)).2
    = mkWorld ({[ "total_sks" := VInt 25 ]} : dict)
        [mkLogRecord WARNING LOGGER msg] tt.
Proof.
  exact (provided_rules_log_verdict 24 (SksLimitRule.new 24)
           (mkWorld ({[ "total_sks" := VInt 25 ]} : dict) [] tt)
           (or_introl eq_refl)).
Defined.

Lemma for_rules_closing {X} (rules : list (IValidationRule X)) i st :
  match RegistrationService.for_rules i rules st with
  | (Ok (Some b), st') =>
      b = false ∧
      last (log (world st'))
      = Some (mkLogRecord ERROR LOGGER ">>> VALIDASI REGISTRASI GAGAL")
  | _ => True
  end.
Proof.
  revert i st. induction rules as [|rule rest IH]; intros i st; [done|].
  rewrite for_rules_cons.
  destruct (validate rule (world st)) as [[[]|e] w']; [apply IH| |done].
  cbn. split; [done|]. apply last_snoc.
Qed.

(** X10. The last log record tells how the service ended, whatever the rules
    logged: after a true result it is the INFO line
    ">>> VALIDASI REGISTRASI BERHASIL", after a false result the ERROR line
    ">>> VALIDASI REGISTRASI GAGAL". *)
Theorem validate_closing_record {X} (rules : list (IValidationRule X))
    (w : World dict X) :
  let res := run (RegistrationService.validate (RegistrationService.new rules)) w in
  (res.1 = Ok true →
   last (log (world res.2))
   = Some (mkLogRecord INFO LOGGER ">>> VALIDASI REGISTRASI BERHASIL")) ∧
  (res.1 = Ok false →
   last (log (world res.2))
   = Some (mkLogRecord ERROR LOGGER ">>> VALIDASI REGISTRASI GAGAL")).
Proof.
  cbv zeta. rewrite validate_unfold.
  pose proof (for_rules_closing rules 0
                (mkMachine (logged INFO "=== MULAI VALIDASI REGISTRASI ===" w) []))
    as Hc.
  destruct (RegistrationService.for_rules _ _ _) as [[[b|]|e] st]; cbn.
  - destruct Hc as [-> Hlast]. by split.
  - split; [intros _; apply last_snoc | done].
  - by split.
Qed.

Lemma validate_closing_record_witness :
  last (log (world (run (RegistrationService.validate
                           (RegistrationService.new
                              [SksLimitRule.new 24; PrerequisiteRule.new]))
                        (mkWorld ({[ "total_sks" := VInt 25 ]} : dict) [] tt)).2))
  = Some (mkLogRecord ERROR LOGGER ">>> VALIDASI REGISTRASI GAGAL").
Proof.
  apply (validate_closing_record [SksLimitRule.new 24; PrerequisiteRule.new]
           (mkWorld ({[ "total_sks" := VInt 25 ]} : dict) [] tt)).
  reflexivity.
Defined.

(** X11. A service without rules accepts every registration: it returns
    true, calls nothing, logs its opening and closing lines and nothing
    else, and leaves the data and the rest of the heap alone. *)
Theorem validate_no_rules {X} (w : World dict X) :
  run (RegistrationService.validate (RegistrationService.new [])) w
  = (Ok true,
     mkMachine
       (mkWorld (obj w)
          (log w ++ [mkLogRecord INFO LOGGER "=== MULAI VALIDASI REGISTRASI ===";
                     mkLogRecord INFO LOGGER ">>> VALIDASI REGISTRASI BERHASIL"])
          (ext w))
       []).
Proof.
  rewrite validate_unfold. unfold logged. exec. by rewrite <- app_assoc.
Qed.

(** X13. Raising the limit never rejects what a lower limit accepted, and
    lowering it never accepts what a higher limit rejected, whatever the
    data: under the lower limit the rule then returns false, or, when the
    lower limit has more than 4300 decimal digits, raises [ValueError] for
    the warning it cannot format. *)
Theorem SksLimitRule_monotone {X} (max_sks max_sks' : Z) (w : World dict X) :
  max_sks ≤ max_sks' →
  let low := (SksLimitRule.validate (SksLimitRule.init max_sks) w).1 in
  let high := (SksLimitRule.validate (SksLimitRule.init max_sks') w).1 in
  (low = Ok true → high = Ok true) ∧
  (high = Ok false → low ≠ Ok true) ∧
  (high = Ok false →
   if (digits max_sks <=? int_max_str_digits)%nat
   then low = Ok false
   else ∃ msg, low = Raise (ValueError msg)).
Proof.
  intros Hle. cbv zeta. rewrite !SksLimitRule_unfold. cbv zeta.
  change (str (VInt max_sks)) with (str_of_int max_sks).
  change (str (VInt max_sks')) with (str_of_int max_sks').
  destruct (as_int (default (VInt 0) (obj w !! "total_sks"))) as [n|] eqn:Hn.
  - rewrite !(gt_numeric _ _ _ Hn).
    destruct (Z.ltb_spec max_sks n), (Z.ltb_spec max_sks' n); try lia.
    + destruct (str _) as [total|e]; [|by repeat split].
      destruct (Nat.leb_spec (digits max_sks) int_max_str_digits) as [Hfit | Hlong].
      * rewrite (str_of_int_fits _ Hfit). by repeat split.
      * destruct (str_of_int_too_long _ Hlong) as [msg ->].
        repeat split; try done. intros _. by exists msg.
    + by repeat split.
    + by repeat split.
  - rewrite !(gt_non_numeric _ _ Hn). by repeat split.
Qed.

Lemma SksLimitRule_monotone_witness :
  (SksLimitRule.validate (SksLimitRule.init 30)
     (mkWorld ({[ "total_sks" := VInt 24 ]} : dict) [] tt)).1 = Ok true ∧
  (SksLimitRule.validate (SksLimitRule.init 24)
     (mkWorld ({[ "total_sks" := VInt 31 ]} : dict) [] tt)).1 = Ok false.
Proof.
  split.
  - apply (SksLimitRule_monotone 24 30
             (mkWorld ({[ "total_sks" := VInt 24 ]} : dict) [] tt)).
    + lia.
    + reflexivity.
  - destruct (SksLimitRule_monotone 24 30
                (mkWorld ({[ "total_sks" := VInt 31 ]} : dict) [] tt))
      as (_ & _ & H); [lia|].
    apply H. reflexivity.
Defined.

Lemma decided_verdicts {X} (d : dict) (rules : list (IValidationRule X)) :
  Forall (λ rule, ∃ b, returns_on d rule b) rules →
  ∃ bs, Forall2 (returns_on d) rules bs.
Proof.
  induction 1 as [|rule rest [b Hb] _ [bs Hbs]].
  - exists []. apply List.Forall2_nil.
  - exists (b :: bs). by apply List.Forall2_cons.
Qed.

Lemma verdicts_all_true {X} (w : World dict X) (rules : list (IValidationRule X)) bs :
  Forall2 (returns_on (obj w)) rules bs →
  forallb id bs = true ↔ Forall (λ rule, returns_on (obj w) rule true) rules.
Proof.
  induction 1 as [|rule b rest bs Hb _ IH]; cbn.
  - split; [intros _; apply Forall_nil_2 | done].
  - rewrite andb_true_iff, IH, Forall_cons.
    split; intros [H1 H2]; (split; [|done]).
    + cbv [id] in H1. by subst b.
    + destruct (Hb w eq_refl) as [Hb1 _]. destruct (H1 w eq_refl) as [H11 _].
      cbv [id]. congruence.
Qed.

Lemma verdict_true_iff {X} (rules : list (IValidationRule X)) (w : World dict X) :
  Forall (λ rule, ∃ b, returns_on (obj w) rule b) rules →
  let verdict :=
    (run (RegistrationService.validate (RegistrationService.new rules)) w).1 in
  (verdict = Ok true ↔ Forall (λ rule, returns_on (obj w) rule true) rules) ∧
  (verdict = Ok true ∨ verdict = Ok false).
Proof.
  intros Hd. destruct (decided_verdicts _ _ Hd) as [bs Hbs]. cbv zeta.
  rewrite (validate_verdicts rules bs w Hbs), <- (verdicts_all_true w rules bs Hbs).
  destruct (forallb id bs); split; try done; auto.
Qed.

(** X12. For rules that each give a definite verdict on the data, the
    service's verdict is their conjunction: a concatenated rule list
    accepts exactly when both parts accept, and reordering the rules never
    changes the verdict. *)
Theorem verdict_is_conjunction {X} (rules1 rules2 : list (IValidationRule X))
    (w : World dict X) :
  let verdict rules :=
    (run (RegistrationService.validate (RegistrationService.new rules)) w).1 in
  Forall (λ rule, ∃ b, returns_on (obj w) rule b) (rules1 ++ rules2)%list →
  (verdict (rules1 ++ rules2)%list = Ok true ↔
   verdict rules1 = Ok true ∧ verdict rules2 = Ok true) ∧
  (∀ rules', rules' ≡ₚ (rules1 ++ rules2)%list →
             verdict rules' = verdict (rules1 ++ rules2)%list).
Proof.
  cbv zeta. intros Hd.
  pose proof Hd as Hd12. apply Forall_app in Hd12 as [Hd1 Hd2].
  destruct (verdict_true_iff _ w Hd) as [Hall Hcases].
  destruct (verdict_true_iff _ w Hd1) as [Hall1 _].
  destruct (verdict_true_iff _ w Hd2) as [Hall2 _].
  split.
  - rewrite Hall, Hall1, Hall2. apply Forall_app.
  - intros rules' Hperm.
    assert (Forall (λ rule, ∃ b, returns_on (obj w) rule b) rules') as Hd'
      by (by rewrite Hperm).
    destruct (verdict_true_iff _ w Hd') as [Hall' Hcases'].
    assert (Forall (λ rule, returns_on (obj w) rule true) rules'
            ↔ Forall (λ rule, returns_on (obj w) rule true) (rules1 ++ rules2))
      as Hsame by (by rewrite Hperm).
    destruct Hcases as [H | H], Hcases' as [H' | H']; rewrite H, H'; try done.
    + apply Hall, Hsame, Hall' in H. congruence.
    + apply Hall', Hsame, Hall in H'. congruence.
Qed.

Lemma verdict_is_conjunction_witness :
  (run (RegistrationService.validate
          (RegistrationService.new
             [JadwalBentrokRule.new; PrerequisiteRule.new; SksLimitRule.new 24]))
       (mkWorld data_mhs [] tt)).1
  = (run (RegistrationService.validate
            (RegistrationService.new
               ([SksLimitRule.new 24] ++ [PrerequisiteRule.new; JadwalBentrokRule.new])%list))
         (mkWorld data_mhs [] tt)).1.
Proof.
  apply (verdict_is_conjunction [SksLimitRule.new 24]
           [PrerequisiteRule.new; JadwalBentrokRule.new]
           (mkWorld data_mhs [] tt)).
  - apply Forall_cons_2; [eexists; apply (SksLimitRule_decides _ 22); [reflexivity | lia]|].
    apply Forall_cons_2; [eexists; apply PrerequisiteRule_decides|].
    apply Forall_cons_2; [eexists; apply JadwalBentrokRule_decides|].
    apply Forall_nil_2.
  - cbn. apply Permutation_rev.
Defined.

Lemma for_rules_log {X} (rules : list (IValidationRule X)) :
  Forall logs_one_record rules →
  ∀ i st,
    ∃ new cs,
      world (RegistrationService.for_rules i rules st).2
      = mkWorld (obj (world st)) (log (world st) ++ new) (ext (world st)) ∧
      calls (RegistrationService.for_rules i rules st).2 = (calls st ++ cs)%list ∧
      match (RegistrationService.for_rules i rules st).1 with
      | Ok None => length new = length cs
      | Ok (Some _) => length new = S (length cs)
      | Raise _ => S (length new) = length cs
      end.
Proof.
  induction 1 as [|rule rest Hrule _ IH]; intros i st.
  - exists [], []. cbn. rewrite !app_nil_r. by destruct (world st).
  - rewrite for_rules_cons. specialize (Hrule (world st)).
    destruct (validate rule (world st)) as [[[]|e] w'].
    + destruct Hrule as [r ->].
      destruct (IH (S i) (mkMachine
                            (mkWorld (obj (world st)) (log (world st) ++ [r])
                               (ext (world st)))
                            (calls st ++ [mkCall i (obj (world st)) (Ok true)])))
        as (new & cs & Hw & Hc & Hlen).
      exists (r :: new), (mkCall i (obj (world st)) (Ok true) :: cs).
      rewrite Hw, Hc. cbn. rewrite <- !app_assoc. repeat split.
      destruct (RegistrationService.for_rules _ _ _).1 as [[b|]|e]; cbn; lia.
    + destruct Hrule as [r ->].
      eexists [r; _], [_]. cbn. rewrite <- app_assoc. done.
    + subst w'. exists [], [mkCall i (obj (world st)) (Raise e)]. cbn.
      rewrite app_nil_r. by destruct (world st).
Qed.

(** X14. Over rules that log one record per verdict (the provided rules do)
    the log counts the rules consulted: the service keeps the earlier
    records and the rest of the world, and appends as many records as it
    called rules, plus its opening and closing lines when it returns; when a
    rule raises, the closing line and that rule's record are missing. *)
Theorem validate_log_counts_rules {X} (rules : list (IValidationRule X))
    (w : World dict X) :
  Forall logs_one_record rules →
  let res := run (RegistrationService.validate (RegistrationService.new rules)) w in
  ∃ new,
    world res.2 = mkWorld (obj w) (log w ++ new) (ext w) ∧
    length new
    = match res.1 with
      | Ok _ => (2 + length (calls res.2))%nat
      | Raise _ => length (calls res.2)
      end.
Proof.
  intros Hrules. cbv zeta. rewrite validate_unfold.
  destruct (for_rules_log rules Hrules 0
              (mkMachine (logged INFO "=== MULAI VALIDASI REGISTRASI ===" w) []))
    as (new & cs & Hw & Hc & Hlen).
  destruct (RegistrationService.for_rules _ _ _) as [[[b|]|e] st];
    cbn in Hw, Hc, Hlen |- *; subst.
  - eexists (_ :: new). rewrite Hw. cbn. rewrite <- app_assoc.
    split; [reflexivity|]. cbn. lia.
  - exists (mkLogRecord INFO LOGGER "=== MULAI VALIDASI REGISTRASI ===" :: new
            ++ [mkLogRecord INFO LOGGER ">>> VALIDASI REGISTRASI BERHASIL"]).
    rewrite Hw. unfold logged. exec. rewrite <- !app_assoc. cbn.
    split; [reflexivity|]. rewrite length_app. cbn. lia.
  - eexists (_ :: new). rewrite Hw. cbn. rewrite <- app_assoc.
    split; [reflexivity|]. cbn. lia.
Qed.

Lemma validate_log_counts_rules_witness :
  let res :=
    run (RegistrationService.validate
           (RegistrationService.new
              [SksLimitRule.new 24; PrerequisiteRule.new; JadwalBentrokRule.new]))
        (mkWorld (<["prasyarat_ok" := VBool false]> data_mhs) [] tt) in
  length (log (world res.2)) = 4%nat.
Proof.
  intros res.
  destruct (@provided_rules_log_one_record unit 24) as (Hs & Hp & Hj).
  destruct (validate_log_counts_rules
              [SksLimitRule.new 24; PrerequisiteRule.new; JadwalBentrokRule.new]
              (mkWorld (<["prasyarat_ok" := VBool false]> data_mhs) [] tt))
    as (new & Hw & Hlen).
  - apply Forall_cons_2; [exact Hs|].
    apply Forall_cons_2; [exact Hp|].
    apply Forall_cons_2; [exact Hj|]. apply Forall_nil_2.
  - fold res in Hw, Hlen. rewrite Hw. cbn. rewrite Hlen. reflexivity.
Defined.

Lemma main_keys_only {X} (max_sks : Z) (w w' : World dict X) :
  obj w !! "total_sks" = obj w' !! "total_sks" →
  obj w !! "prasyarat_ok" = obj w' !! "prasyarat_ok" →
  obj w !! "jadwal_bentrok" = obj w' !! "jadwal_bentrok" →
  ∀ r,
    (run (RegistrationService.validate
            (RegistrationService.new
               [SksLimitRule.new max_sks; PrerequisiteRule.new;
                JadwalBentrokRule.new])) w).1 = r →
    (run (RegistrationService.validate
            (RegistrationService.new
               [SksLimitRule.new max_sks; PrerequisiteRule.new;
                JadwalBentrokRule.new])) w').1 = r.
Proof.
  intros Hs Hp Hj r. rewrite !configured_outcome. cbv zeta.
  by rewrite Hs, Hp, Hj.
Qed.

(** X15. The script's rule list reads three keys and nothing else: two
    data mappings that agree on "total_sks", "prasyarat_ok" and
    "jadwal_bentrok" (present or absent alike) get the same outcome, be it
    true, false or the same exception, whatever else they hold. *)
Theorem configured_rules_read_three_keys {X} (max_sks : Z) (w w' : World dict X) :
  obj w !! "total_sks" = obj w' !! "total_sks" →
  obj w !! "prasyarat_ok" = obj w' !! "prasyarat_ok" →
  obj w !! "jadwal_bentrok" = obj w' !! "jadwal_bentrok" →
  let configured :=
    RegistrationService.new
      [SksLimitRule.new max_sks; PrerequisiteRule.new; JadwalBentrokRule.new] in
  (run (RegistrationService.validate configured) w).1
  = (run (RegistrationService.validate configured) w').1.
Proof.
  intros Hs Hp Hj. cbv zeta. symmetry. by apply (main_keys_only max_sks w w').
Qed.

Lemma configured_rules_read_three_keys_witness :
  let configured :=
    RegistrationService.new
      [SksLimitRule.new 24; PrerequisiteRule.new; JadwalBentrokRule.new] in
  (run (RegistrationService.validate configured)
       (mkWorld (delete "nama" data_mhs) [] tt)).1
  = (run (RegistrationService.validate configured) (mkWorld data_mhs [] tt)).1.
Proof.
  apply (configured_rules_read_three_keys 24
           (mkWorld (delete "nama" data_mhs) [] tt) (mkWorld data_mhs [] tt));
    reflexivity.
Defined.

End RegistrationBehaviour.
